(** * voc4cat: spreadsheet to vocabulary conversion

    A shallow embedding of [src/voc4cat/convert.py] and
    [src/voc4cat/utils.py], and the properties of the row extractor, the
    field splitter, the template version gate and the two conversion
    orchestrators. *)

From Stdlib Require Import Ascii String.
From stdpp Require Import base option list gmap strings pretty.

Local Open Scope string_scope.
Local Open Scope nat_scope.
Local Open Scope list_scope.

(** ** Python values, text and exceptions *)

Module Py.

(** The value of a spreadsheet cell as openpyxl hands it over: [None]
    for an empty cell, a [str], or any other object (a number, a date, a
    boolean), of which the code only ever uses the [str()] rendering. *)
Inductive Value :=
| VNone
| VStr (s : string)
| VOther (repr : string).

Global Instance Value_eq_dec : EqDecision Value.
Proof. solve_decision. Defined.

(** [value == "literal"]: only a [str] equals a [str]. *)
Definition eq_str (v : Value) (lit : string) : bool :=
  match v with
  | VStr s => bool_decide (s = lit)
  | _ => false
  end.

(** [value is None] *)
Definition is_None (v : Value) : bool :=
  match v with VNone => true | _ => false end.

(** [f"{value}"] *)
Definition format (v : Value) : string :=
  match v with
  | VNone => "None"
  | VStr s => s
  | VOther r => r
  end.

(** The exceptions that the two modules raise or let through. *)
Inductive exn :=
| ValueError (msg : string)
| ConversionError (msg : string)
| Voc4catError (msg : string)
| AttributeError (msg : string)
| KeyError (key : string)
| ValidationError (msg : string)
| InvalidFileException (msg : string)
| FileNotFoundError (msg : string).

Global Instance exn_eq_dec : EqDecision exn.
Proof. solve_decision. Defined.

(** A computation either raises or returns. *)
Definition M (A : Type) : Type := exn + A.

Definition ret {A} (a : A) : M A := inr a.
Definition raise {A} (e : exn) : M A := inl e.
Definition bind {A B} (m : M A) (k : A → M B) : M B :=
  match m with
  | inl e => inl e
  | inr a => k a
  end.

(** *** [str] methods

    A [str] is a sequence of code points; the model keeps the code points
    below 256, one per [ascii]. *)

(** [str.isspace] on one character (code points below 256). *)
Definition isspace (a : ascii) : bool :=
  match a with
  | "009" | "010" | "011" | "012" | "013"
  | "028" | "029" | "030" | "031" | " "
  | "133" | "160" => true
  | _ => false
  end%char.

Fixpoint lstrip (s : string) : string :=
  match s with
  | "" => ""
  | String a s' => if isspace a then lstrip s' else s
  end.

Fixpoint rstrip (s : string) : string :=
  match s with
  | "" => ""
  | String a s' =>
      match rstrip s' with
      | "" => if isspace a then "" else String a ""
      | r => String a r
      end
  end.

(** [s.strip()] *)
Definition strip (s : string) : string := rstrip (lstrip s).

(** [s.split(sep)] for a separator of one character: never the empty
    list, [""] splits into [[""]]. *)
Fixpoint split (sep : ascii) (s : string) : list string :=
  match s with
  | "" => [""]
  | String a s' =>
      if Ascii.eqb a sep
      then "" :: split sep s'
      else match split sep s' with
           | t :: ts => String a t :: ts
           | [] => [String a ""]
           end
  end.

(** [s.endswith(suffix)] *)
Definition endswith (s suffix : string) : bool :=
  let n := String.length s in
  let k := String.length suffix in
  bool_decide (k ≤ n) && bool_decide (substring (n - k) k s = suffix).

(** [s.endswith(tuple(suffixes))] *)
Definition endswith_any (s : string) (suffixes : list string) : bool :=
  existsb (endswith s) suffixes.

(** The line feed, written [\n] in the Python source. *)
Definition newline : string := String "010" "".

(** [sep.join(parts)] *)
Fixpoint join (sep : string) (parts : list string) : string :=
  match parts with
  | [] => ""
  | [p] => p
  | p :: ps => p +:+ sep +:+ join sep ps
  end.

(** [str.lower] on one character (code points below 256): the letters A
    to Z, and the capital letters of Latin-1, which lie 32 below their
    small forms. *)
Definition lower_char (a : ascii) : ascii :=
  let n := nat_of_ascii a in
  if (65 <=? n) && (n <=? 90) then ascii_of_nat (n + 32)
  else if (192 <=? n) && (n <=? 222) && negb (n =? 215) then ascii_of_nat (n + 32)
  else a.

(** [s.lower()] *)
Fixpoint lower (s : string) : string :=
  match s with
  | "" => ""
  | String a s' => String (lower_char a) (lower s')
  end.

(** [s.rfind(c)] for one character: the last index of [c], [None] for the
    -1 of Python. *)
Fixpoint rfind (c : ascii) (s : string) : option nat :=
  match s with
  | "" => None
  | String a s' =>
      match rfind c s' with
      | Some i => Some (S i)
      | None => if Ascii.eqb a c then Some 0 else None
      end
  end.

(** [s.count(c)] for one character. *)
Fixpoint count (c : ascii) (s : string) : nat :=
  match s with
  | "" => 0
  | String a s' => (if Ascii.eqb a c then 1 else 0) + count c s'
  end.

(** [os.path.splitext(name)[1]] for the last component of a path: the
    name from its last dot on, unless only dots come before that dot. *)
Definition extension (name : string) : string :=
  match rfind "." name with
  | Some i =>
      if bool_decide (count "." (substring 0 i name) = i) then ""
      else substring i (String.length name - i) name
  | None => ""
  end.

End Py.

Notation "x <~ m ;; k" := (Py.bind m (λ x, k))
  (at level 100, m at next level, right associativity, only parsing).

(** ** The libraries the code calls *)

(** openpyxl: a worksheet is a grid of cells addressed by column letter and
    row number, a workbook a sequence of titled worksheets. *)
Module Openpyxl.
Import Py.

(** The cells of one row, columns A, B, C, ... *)
Definition Row := list Value.

(** Rows 1, 2, 3, ... of a sheet. *)
Definition Worksheet := list Row.

Inductive Column := A | B | C | D | E | F | G | H | I | J.

Definition column_index (c : Column) : nat :=
  match c with
  | A => 0 | B => 1 | C => 2 | D => 3 | E => 4
  | F => 5 | G => 6 | H => 7 | I => 8 | J => 9
  end.

(** [s[f"{c}{row}"].value]: a cell nobody wrote holds [None]. *)
Definition cell_value (s : Worksheet) (c : Column) (row : nat) : Value :=
  match row with
  | 0 => VNone
  | S i => default VNone (r ← s !! i; r !! column_index c)
  end.

(** [s.max_row]: 1 on an empty sheet. *)
Definition max_row (s : Worksheet) : nat := Nat.max 1 (length s).

(** The row numbers of the cells of [s.iter_cols(max_col=1)], which
    yields the single column A from row 1 to [max_row]. *)
Definition first_column_rows (s : Worksheet) : list nat := seq 1 (max_row s).

Definition Workbook := list (string * Worksheet).

(** [wb[title]]: the first sheet of that title, [KeyError] if none. *)
Fixpoint getitem (wb : Workbook) (title : string) : M Worksheet :=
  match wb with
  | [] => raise (KeyError title)
  | (t, s) :: wb' => if bool_decide (t = title) then ret s else getitem wb' title
  end.

(** The extensions [load_workbook] accepts; it compares the extension of
    the file name in lower case with them before it opens the file. *)
Definition SUPPORTED_FORMATS : list string := [".xlsx"; ".xlsm"; ".xltx"; ".xltm"].

End Openpyxl.

(** pathlib: a path is its directories and its final component. *)
Module Pathlib.

Record Path := { parents : list string; name : string }.

(** [str(path)] *)
Definition str (p : Path) : string := Py.join "/" (parents p ++ [name p]).

Global Instance Path_eq_dec : EqDecision Path.
Proof. solve_decision. Defined.

(** [path.suffix]: the name from its last dot on, when that dot is
    neither the first nor the last character of the name. *)
Definition suffix (p : Path) : string :=
  let name := name p in
  match Py.rfind "." name with
  | Some i =>
      if (0 <? i) && (i <? String.length name - 1)
      then substring i (String.length name - i) name
      else ""
  | None => ""
  end.

End Pathlib.

(** The file system the conversions read and write, with the record of the
    calls of openpyxl's [load_workbook]. *)
Module World.

Inductive File :=
| XlsxFile (wb : Openpyxl.Workbook)
| TextFile (content : string).

Record World := { files : gmap string File; loads : list string }.

End World.

(** The keyword arguments with which the code constructs the domain
    entities of [models]. *)
Module Args.
Import Py.

Record ConceptScheme := {
  scheme_uri : Value;
  scheme_title : Value;
  scheme_description : Value;
  scheme_created : Value;
  scheme_modified : Value;
  scheme_creator : Value;
  scheme_publisher : Value;
  scheme_version : Value;
  scheme_provenance : Value;
  scheme_custodian : Value;
  scheme_pid : Value
}.

Record Concept := {
  concept_uri : Value;
  concept_pref_label : Value;
  concept_alt_labels : option (list string);
  concept_definition : Value;
  concept_children : option (list string);
  concept_other_ids : option (list string);
  concept_home_vocab_uri : Value;
  concept_provenance : Value
}.

Record Collection := {
  collection_uri : Value;
  collection_pref_label : Value;
  collection_definition : Value;
  collection_members : option (list string);
  collection_provenance : Value
}.

End Args.

(** The modules [models] and [profiles] of the repository, rdflib and
    pyshacl are collaborators of the code: the embedding is parametric in
    them. A constructor of [models] returns the entity or the text of the
    pydantic [ValidationError] it raises. *)
Class Models := {
  ConceptScheme : Type;
  Concept : Type;
  Collection : Type;
  Vocabulary : Type;
  Graph : Type;
  models_ConceptScheme : Args.ConceptScheme → string + ConceptScheme;
  models_Concept : Args.Concept → string + Concept;
  models_Collection : Args.Collection → string + Collection;
  models_Vocabulary :
    ConceptScheme → list Concept → list Collection → string + Vocabulary;
  to_graph : Vocabulary → Graph;
  serialize : Graph → string
}.

Class Libraries := {
  (** [openpyxl.load_workbook(filename=..., data_only=True)], from the
      file name and what the file system holds under it *)
  openpyxl_load_workbook : string → option World.File → Py.M Openpyxl.Workbook;
  (** [Path.with_suffix] *)
  with_suffix : Pathlib.Path → string → Pathlib.Path;
  (** [profiles.PROFILES.keys()] *)
  PROFILES_keys : list string;
  (** [pyshacl.validate(data, shacl_graph=...)]: conformance and report text *)
  pyshacl_validate : gmap string World.File → string → string → bool * string;
  (** [Path(__file__).parent] *)
  module_parent : Pathlib.Path;
  (** [glob.glob], [os.path.join], [os.path.normcase], [os.path.splitext(f)[0]] *)
  glob : string → list string;
  os_path_join : string → string → string;
  os_path_normcase : string → string;
  os_path_splitext_root : string → string
}.

(** What the command line needs besides: the uri of a profile of
    [profiles.PROFILES], the version of the package, and the [str()] of a
    graph and of an exception. *)
Class Cli {MD : Models} := {
  profile_uri : string → string;
  package_version : string;
  graph_str : Graph → string;
  exception_str : Py.exn → string
}.

(** ** convert.py *)

Module Convert.
Import Py Openpyxl Pathlib World.

Definition RDF_FILE_ENDINGS : list string :=
  ["ttl"; "rdf"; "xml"; "json-ld"; "json"; "nt"; "n3"].
Definition EXCEL_FILE_ENDINGS : list string := ["xlsx"].
Definition KNOWN_FILE_ENDINGS : list string :=
  RDF_FILE_ENDINGS ++ EXCEL_FILE_ENDINGS.

Definition no_strip : exn :=
  AttributeError "object has no attribute 'strip'".

(** [split_and_tidy]: [None] stays [None]; [.strip()] on a value that is
    not a [str] raises. *)
Definition split_and_tidy (cell_value : Value) : M (option (list string)) :=
  match cell_value with
  | VNone => ret None
  | VStr s => ret (Some (map strip (split "," (strip s))))
  | VOther _ => raise no_strip
  end.

Section Extraction.
Context {MD : Models}.

(** The local variables of [extract_concepts_and_collections]. *)
Record State := {
  concepts : list Concept;
  collections : list Collection;
  process_concept : bool;
  process_collection : bool
}.

Definition initial : State :=
  {| concepts := []; collections := [];
     process_concept := false; process_collection := false |}.

Definition concept_error (row : nat) (e : string) : exn :=
  ConversionError ("Concept processing error, row " +:+ pretty row +:+ ", error: " +:+ e).

Definition collection_error (row : nat) (e : string) : exn :=
  ConversionError ("Collection processing error, row " +:+ pretty row +:+ ", error: " +:+ e).

(** The [try] block of the concept branch: the arguments are evaluated in
    order, then the constructor validates them. *)
Definition make_concept (s : Worksheet) (row : nat) : M Concept :=
  alt_labels <~ split_and_tidy (cell_value s C row);;
  children <~ split_and_tidy (cell_value s E row);;
  other_ids <~ split_and_tidy (cell_value s F row);;
  match models_Concept
          {| Args.concept_uri := cell_value s A row;
             Args.concept_pref_label := cell_value s B row;
             Args.concept_alt_labels := alt_labels;
             Args.concept_definition := cell_value s D row;
             Args.concept_children := children;
             Args.concept_other_ids := other_ids;
             Args.concept_home_vocab_uri := cell_value s G row;
             Args.concept_provenance := cell_value s H row |} with
  | inr c => ret c
  | inl e => raise (concept_error row e)
  end.

(** The [try] block of the collection branch. *)
Definition make_collection (s : Worksheet) (row : nat) : M Collection :=
  members <~ split_and_tidy (cell_value s D row);;
  match models_Collection
          {| Args.collection_uri := cell_value s A row;
             Args.collection_pref_label := cell_value s B row;
             Args.collection_definition := cell_value s C row;
             Args.collection_members := members;
             Args.collection_provenance := cell_value s E row |} with
  | inr c => ret c
  | inl e => raise (collection_error row e)
  end.

(** The body of the inner loop, for the cell of column A at [row]. *)
Definition step (s : Worksheet) (st : State) (row : nat) : M State :=
  let value := cell_value s A row in
  if eq_str value "Concept URI" then
    ret {| concepts := concepts st; collections := collections st;
           process_concept := true;
           process_collection := process_collection st |}
  else if eq_str value "Collection URI" then
    ret {| concepts := concepts st; collections := collections st;
           process_concept := false; process_collection := true |}
  else if process_concept st then
    if is_None value then ret st
    else
      c <~ make_concept s row;;
      ret {| concepts := concepts st ++ [c]; collections := collections st;
             process_concept := process_concept st;
             process_collection := process_collection st |}
  else if process_collection st then
    if is_None value then ret st
    else
      c <~ make_collection s row;;
      ret {| concepts := concepts st; collections := collections st ++ [c];
             process_concept := process_concept st;
             process_collection := process_collection st |}
  else ret st.

(** The loop over the cells of the column. *)
Fixpoint loop (s : Worksheet) (rows : list nat) (st : State) : M State :=
  match rows with
  | [] => ret st
  | row :: rows' => st' <~ step s st row;; loop s rows' st'
  end.

Definition extract_concepts_and_collections (s : Worksheet)
  : M (list Concept * list Collection) :=
  st <~ loop s (first_column_rows s) initial;;
  ret (concepts st, collections st).

End Extraction.

Section Orchestrators.
Context {MD : Models} {LB : Libraries}.

(** What [excel_to_rdf] and [rdf_to_excel] return. *)
Inductive Output :=
| OGraph (g : Graph)
| OString (text : string)
| OPath (dest : Path)
| ONone.

(** [load_workbook(filename=...)], recorded in the world. *)
Definition load_workbook (w : World) (filename : string) : World * M Workbook :=
  ({| files := files w; loads := loads w ++ [filename] |},
   openpyxl_load_workbook filename (files w !! filename)).

(** The header block B1..B11. *)
Definition make_concept_scheme (sheet : Worksheet) : M ConceptScheme :=
  match models_ConceptScheme
          {| Args.scheme_uri := cell_value sheet B 1;
             Args.scheme_title := cell_value sheet B 2;
             Args.scheme_description := cell_value sheet B 3;
             Args.scheme_created := cell_value sheet B 4;
             Args.scheme_modified := cell_value sheet B 5;
             Args.scheme_creator := cell_value sheet B 6;
             Args.scheme_publisher := cell_value sheet B 7;
             Args.scheme_version := cell_value sheet B 8;
             Args.scheme_provenance := cell_value sheet B 9;
             Args.scheme_custodian := cell_value sheet B 10;
             Args.scheme_pid := cell_value sheet B 11 |} with
  | inr cs => ret cs
  | inl e => raise (ConversionError ("ConceptScheme processing error: " +:+ e))
  end.

(** From the opened sheet to the assembled vocabulary (lines 98 to 120). *)
Definition build_vocabulary (sheet : Worksheet) : M Vocabulary :=
  cs <~ make_concept_scheme sheet;;
  cc <~ extract_concepts_and_collections sheet;;
  match models_Vocabulary cs cc.1 cc.2 with
  | inr v => ret v
  | inl e => raise (ValidationError e)
  end.

Definition excel_to_rdf (w : World) (file_to_convert_path : Path)
    (sheet_name : option string) (output_type : string)
    (output_file_path : option Path) : World * M Output :=
  if negb (endswith_any (name file_to_convert_path) EXCEL_FILE_ENDINGS) then
    (w, raise (ValueError "Files for conversion to RDF must be Excel files ending .xlsx"))
  else
    let (w1, wb) := load_workbook w (str file_to_convert_path) in
    match (wb <~ wb;;
           sheet <~ getitem wb (default "vocabulary" sheet_name);;
           build_vocabulary sheet) with
    | inl e => (w1, raise e)
    | inr v =>
        if bool_decide (output_type = "graph") then (w1, ret (OGraph (to_graph v)))
        else if bool_decide (output_type = "string") then
          (w1, ret (OString (serialize (to_graph v))))
        else
          let dest :=
            match output_file_path with
            | Some p => p
            | None => with_suffix file_to_convert_path ".ttl"
            end in
          ({| files := <[str dest := TextFile (serialize (to_graph v))]> (files w1);
              loads := loads w1 |},
           ret (OPath dest))
    end.

(** [str(Path(__file__).parent / "validator.vocpub.ttl")] *)
Definition shacl_graph : string :=
  str {| parents := parents module_parent ++ [name module_parent];
         name := "validator.vocpub.ttl" |}.

Definition rdf_to_excel (w : World) (file_to_convert_path : Path)
    (profile : string) (output_file_path : option Path) : World * M Output :=
  if negb (endswith_any (name file_to_convert_path) RDF_FILE_ENDINGS) then
    (w, raise (ValueError
      ("Files for conversion to Excel must end with one of the RDF file formats: '"
       +:+ join "', '" RDF_FILE_ENDINGS +:+ "'")))
  else if negb (bool_decide (profile ∈ PROFILES_keys)) then
    (w, raise (ValueError
      ("The profile chosen for conversion must be one of '"
       +:+ join "', '" PROFILES_keys +:+ "'. 'vocpub' is default")))
  else
    let r := pyshacl_validate (files w) (str file_to_convert_path) shacl_graph in
    if negb r.1 then
      (w, raise (ConversionError
        ("The file you supplied is not valid according to the " +:+ profile
         +:+ " profile. The validation errors are:" +:+ newline +:+ newline +:+ r.2)))
    else (w, ret ONone).

End Orchestrators.

Section Main.
Context {MD : Models} {LB : Libraries} {CL : Cli}.

(** The two values argparse lets through for [--outputtype]. *)
Inductive OutputType := type_file | type_string.

Definition outputtype_str (t : OutputType) : string :=
  match t with type_file => "file" | type_string => "string" end.

(** The namespace [parser.parse_args()] returns. *)
Record Namespace := {
  version : bool;
  listprofiles : bool;
  file_to_convert : Path;
  validate : bool;
  profile : string;
  outputtype : OutputType;
  outputfile : option string;
  sheet : string
}.

(** What a run of [main] shows: the lines printed, one per call of
    [print], and whether it ended in [exit()]. *)
Record Run := { printed : list string; exited : bool }.

Definition tab : string := String "009" "".

(** [f"{o}"] for what a conversion returned. *)
Definition format_output (o : Output) : string :=
  match o with
  | OGraph g => graph_str g
  | OString text => text
  | OPath dest => str dest
  | ONone => "None"
  end.

(** The two [try] blocks: the result is printed, an exception is printed
    and the program exits. *)
Definition report (first second : string) (t : OutputType)
    (r : World * M Output) : World * Run :=
  match r.2 with
  | inr o =>
      (r.1,
       {| printed :=
            [first; second;
             match t with
             | type_string => format_output o
             | type_file => "Output is file " +:+ format_output o
             end];
          exited := false |})
  | inl e =>
      (r.1, {| printed := [first; second; exception_str e];
               exited := true |})
  end.

Definition main (w : World) (args : Namespace) : World * Run :=
  let first := match outputfile args with Some f => f | None => "None" end in
  if listprofiles args then
    let s :=
      fold_left (λ s k, s +:+ k +:+ tab +:+ profile_uri k +:+ newline)
        PROFILES_keys
        ("Profiles" +:+ newline +:+ "Token" +:+ tab +:+ "IRI" +:+ newline
         +:+ "-----" +:+ tab +:+ "-----" +:+ newline) in
    (w, {| printed := [first; rstrip s]; exited := true |})
  else if version args then
    (w, {| printed := [first; package_version]; exited := true |})
  else if negb (endswith_any (name (file_to_convert args)) KNOWN_FILE_ENDINGS) then
    (w, {| printed :=
             [first;
              "Files for conversion must either end with .xlsx (Excel) or one of the known RDF file endings, '"
              +:+ join "', '" RDF_FILE_ENDINGS +:+ "'"];
           exited := true |})
  else
    let second := "Processing file " +:+ str (file_to_convert args) in
    let output_file_path :=
      option_map (λ f, {| parents := []; name := f |}) (outputfile args) in
    if endswith_any (name (file_to_convert args)) EXCEL_FILE_ENDINGS then
      report first second (outputtype args)
        (excel_to_rdf w (file_to_convert args) (Some (sheet args))
           (outputtype_str (outputtype args)) output_file_path)
    else
      report first second (outputtype args)
        (rdf_to_excel w (file_to_convert args) (profile args) output_file_path).

End Main.

End Convert.

(** ** utils.py *)

Module Utils.
Import Py Openpyxl.

Definition EXCEL_FILE_ENDINGS : list string := [".xlsx"].
Definition RDF_FILE_ENDINGS : list (string * string) :=
  [(".ttl", "ttl"); (".rdf", "xml"); (".xml", "xml"); (".json-ld", "json-ld");
   (".json", "json-ld"); (".nt", "nt"); (".n3", "n3")].
Definition KNOWN_FILE_ENDINGS : list string :=
  map fst RDF_FILE_ENDINGS ++ EXCEL_FILE_ENDINGS.
Definition KNOWN_TEMPLATE_VERSIONS : list string := ["0.4.3"].
Definition LATEST_TEMPLATE : string := default "" (last KNOWN_TEMPLATE_VERSIONS).

(** The objects the functions of the version gate hand back. *)
Inductive Object :=
| OBool (b : bool)
| OValue (v : Value)
| OWorkbook (wb : Workbook).

Definition undeterminable : string :=
  "The version of the Excel template cannot be determined.".

(** [get_template_version]: the [KeyError] of a missing sheet becomes a
    [Voc4catError] (after being logged). *)
Definition get_template_version (wb : Workbook) : M Value :=
  match getitem wb "Introduction" with
  | inr intro_sheet => ret (cell_value intro_sheet J 11)
  | inl (KeyError _) => raise (Voc4catError undeterminable)
  | inl e => raise e
  end.

(** [template_version not in KNOWN_TEMPLATE_VERSIONS] *)
Definition not_in (v : Value) (l : list string) : bool :=
  negb (existsb (eq_str v) l).

Definition is_supported_template (wb : Workbook) : M Object :=
  template_version <~ get_template_version wb;;
  if not_in template_version KNOWN_TEMPLATE_VERSIONS then
    raise (Voc4catError
      ("Unsupported template version. Supported are "
       +:+ join ", " KNOWN_TEMPLATE_VERSIONS
       +:+ ", you supplied " +:+ format template_version +:+ "."))
  else ret (OBool true).

Definition no_strip : exn :=
  AttributeError "object has no attribute 'strip'".

(** [split_and_tidy]: the empty text and [None] give the empty list, and
    the empty entries are filtered out. *)
Definition split_and_tidy (cell_value : Value) : M (list string) :=
  if eq_str cell_value "" || is_None cell_value then ret []
  else
    match cell_value with
    | VStr s =>
        let entries := map strip (split "," (strip s)) in
        ret (filter (λ x, x ≠ "") entries)
    | _ => raise no_strip
    end.

(** What [has_file_in_multiple_formats] returns: [False] or a list. *)
Inductive FalseOrList :=
| PyFalse
| PyList (l : list string).

(** [[x for x in file_names if x in seen or seen.add(x)]]: [seen.add]
    returns [None], so [x] is kept when it was seen and recorded when not. *)
Fixpoint seen_before (seen : gset string) (file_names : list string) : list string :=
  match file_names with
  | [] => []
  | x :: rest =>
      if bool_decide (x ∈ seen) then x :: seen_before seen rest
      else seen_before ({[x]} ∪ seen) rest
  end.

Section Directory.
Context {LB : Libraries}.

Definition file_names (dir_ : string) : list string :=
  let files :=
    map os_path_normcase
        (List.filter (λ f, endswith_any f KNOWN_FILE_ENDINGS)
                     (glob (os_path_join dir_ "*.*"))) in
  map os_path_splitext_root files.

Definition has_file_in_multiple_formats (dir_ : string) : FalseOrList :=
  let file_names := file_names dir_ in
  let unique_file_names : gset string := list_to_set file_names in
  if bool_decide (length file_names = size unique_file_names) then PyFalse
  else PyList (seen_before ∅ file_names).

End Directory.

Section Loading.
Context {LB : Libraries}.

(** openpyxl's [load_workbook(filename=..., data_only=True)], imported as
    [_load_workbook], recorded in the world. *)
Definition openpyxl_load (w : World.World) (filename : string)
  : World.World * M Workbook :=
  ({| World.files := World.files w;
      World.loads := World.loads w ++ [filename] |},
   openpyxl_load_workbook filename (World.files w !! filename)).

(** [file_path.suffix.lower() not in EXCEL_FILE_ENDINGS] *)
Definition not_xlsx (file_path : Pathlib.Path) : bool :=
  negb (bool_decide (lower (Pathlib.suffix file_path) ∈ EXCEL_FILE_ENDINGS)).

Definition load_workbook (w : World.World) (file_path : Pathlib.Path)
  : World.World * M Workbook :=
  if not_xlsx file_path then
    (w, raise (Voc4catError "Files for conversion to RDF must be xlsx files."))
  else openpyxl_load w (Pathlib.str file_path).

Definition load_template (w : World.World) (file_path : Pathlib.Path)
  : World.World * M Workbook :=
  if not_xlsx file_path then
    (w, raise (Voc4catError
                 "Template files for RDF-to-xlsx conversion must be xlsx files."))
  else
    let (w1, wb) := load_workbook w file_path in
    match (wb <~ wb;; get_template_version wb) with
    | inl e => (w1, raise e)
    | inr template_version =>
        if negb (eq_str template_version LATEST_TEMPLATE) then
          (w1, raise (Voc4catError
                        ("Template files for RDF-to-xlsx conversion must be of latest version ("
                         +:+ LATEST_TEMPLATE +:+ ")")))
        else openpyxl_load w1 (Pathlib.str file_path)
    end.

End Loading.

End Utils.

(** ** The claims in the words of the specification *)

Module Spec.
Import Py Openpyxl.

Section Rows.
Context {MD : Models}.

(** A concept populated from the fixed column offsets of [row]: A the uri,
    B the preferred label, C the alternative labels (split), D the
    definition, E the children (split), F the other ids (split), G the
    home vocabulary uri, H the provenance. *)
Definition concept_at (s : Worksheet) (row : nat) (c : Concept) : Prop :=
  ∃ alt_labels children other_ids,
    Convert.split_and_tidy (cell_value s C row) = inr alt_labels ∧
    Convert.split_and_tidy (cell_value s E row) = inr children ∧
    Convert.split_and_tidy (cell_value s F row) = inr other_ids ∧
    models_Concept
      {| Args.concept_uri := cell_value s A row;
         Args.concept_pref_label := cell_value s B row;
         Args.concept_alt_labels := alt_labels;
         Args.concept_definition := cell_value s D row;
         Args.concept_children := children;
         Args.concept_other_ids := other_ids;
         Args.concept_home_vocab_uri := cell_value s G row;
         Args.concept_provenance := cell_value s H row |} = inr c.

(** A collection populated from the fixed column offsets of [row]: A the
    uri, B the preferred label, C the definition, D the members (split),
    E the provenance. *)
Definition collection_at (s : Worksheet) (row : nat) (c : Collection) : Prop :=
  ∃ members,
    Convert.split_and_tidy (cell_value s D row) = inr members ∧
    models_Collection
      {| Args.collection_uri := cell_value s A row;
         Args.collection_pref_label := cell_value s B row;
         Args.collection_definition := cell_value s C row;
         Args.collection_members := members;
         Args.collection_provenance := cell_value s E row |} = inr c.

(** The domain construction of the concept of [row] fails field
    validation with the error [e]. *)
Definition concept_rejected (s : Worksheet) (row : nat) (e : string) : Prop :=
  ∃ alt_labels children other_ids,
    Convert.split_and_tidy (cell_value s C row) = inr alt_labels ∧
    Convert.split_and_tidy (cell_value s E row) = inr children ∧
    Convert.split_and_tidy (cell_value s F row) = inr other_ids ∧
    models_Concept
      {| Args.concept_uri := cell_value s A row;
         Args.concept_pref_label := cell_value s B row;
         Args.concept_alt_labels := alt_labels;
         Args.concept_definition := cell_value s D row;
         Args.concept_children := children;
         Args.concept_other_ids := other_ids;
         Args.concept_home_vocab_uri := cell_value s G row;
         Args.concept_provenance := cell_value s H row |} = inl e.

Definition collection_rejected (s : Worksheet) (row : nat) (e : string) : Prop :=
  ∃ members,
    Convert.split_and_tidy (cell_value s D row) = inr members ∧
    models_Collection
      {| Args.collection_uri := cell_value s A row;
         Args.collection_pref_label := cell_value s B row;
         Args.collection_definition := cell_value s C row;
         Args.collection_members := members;
         Args.collection_provenance := cell_value s E row |} = inl e.

(** The two sentinels of column A. *)
Definition is_sentinel (v : Value) : bool :=
  eq_str v "Concept URI" || eq_str v "Collection URI".

(** The fixed layout: the concepts header on row [i1], the collections
    header on a later row [i2], and no other sentinel in column A. *)
Record fixed_layout (s : Worksheet) (i1 i2 : nat) : Prop := {
  layout_order : 1 ≤ i1 ∧ i1 < i2 ∧ i2 ≤ max_row s;
  layout_concepts : cell_value s A i1 = VStr "Concept URI";
  layout_collections : cell_value s A i2 = VStr "Collection URI";
  layout_data : ∀ r, r ≠ i1 → r ≠ i2 → is_sentinel (cell_value s A r) = false
}.

(** The first-column cell of the row is not empty. *)
Definition nonblank (s : Worksheet) (row : nat) : Prop :=
  cell_value s A row ≠ VNone.

Global Instance nonblank_dec (s : Worksheet) (row : nat) : Decision (nonblank s row).
Proof. unfold nonblank. apply _. Defined.

(** The rows from [lo] up to [hi] (excluded) whose first-column cell is
    not empty, in worksheet order. *)
Definition data_rows (s : Worksheet) (lo hi : nat) : list nat :=
  filter (nonblank s) (seq lo (hi - lo)).

(** The state in which rows are parsed as collections. *)
Definition in_collections (st : Convert.State) : bool :=
  negb (Convert.process_concept st) && Convert.process_collection st.

(** The loop enters the collections state at [row]. *)
Definition transition_at (s : Worksheet) (row : nat) : Prop :=
  ∃ st st',
    Convert.loop s (seq 1 (row - 1)) Convert.initial = inr st ∧
    Convert.step s st row = inr st' ∧
    in_collections st = false ∧ in_collections st' = true.

(** Claim on the section state machine, as the specification words it:
    one transition, and every row after it contributes no entity. *)
Definition transitions_once (s : Worksheet) : Prop :=
  ∃ row, transition_at s row ∧ ∀ row', transition_at s row' → row' = row.

(** A row laid out as concept data: its cells make a concept, and one of
    the columns F, G and H, which only the layout of concepts has, is
    filled. *)
Definition concept_row (s : Worksheet) (row : nat) : Prop :=
  (∃ c, concept_at s row c) ∧
  (cell_value s F row ≠ VNone ∨ cell_value s G row ≠ VNone
   ∨ cell_value s H row ≠ VNone).

Definition ignored_after_transition (s : Worksheet) : Prop :=
  ∀ i row st st',
    transition_at s i → i < row ≤ max_row s →
    concept_row s row →
    Convert.loop s (seq 1 (row - 1)) Convert.initial = inr st →
    Convert.step s st row = inr st' →
    Convert.concepts st' = Convert.concepts st ∧
    Convert.collections st' = Convert.collections st.

(** The header block: the eleven fields of the concept scheme, read from
    the cells B1 to B11. *)
Definition scheme_args (sheet : Worksheet) : Args.ConceptScheme :=
  {| Args.scheme_uri := cell_value sheet B 1;
     Args.scheme_title := cell_value sheet B 2;
     Args.scheme_description := cell_value sheet B 3;
     Args.scheme_created := cell_value sheet B 4;
     Args.scheme_modified := cell_value sheet B 5;
     Args.scheme_creator := cell_value sheet B 6;
     Args.scheme_publisher := cell_value sheet B 7;
     Args.scheme_version := cell_value sheet B 8;
     Args.scheme_provenance := cell_value sheet B 9;
     Args.scheme_custodian := cell_value sheet B 10;
     Args.scheme_pid := cell_value sheet B 11 |}.

(** The first domain construction of the sheet that fails field
    validation, with the message the conversion is to raise: the header
    block, or the first row at which the run stops, a data row of the
    concepts or of the collections section. *)
Inductive first_failure (sheet : Worksheet) : string → Prop :=
| header_fails (e : string) :
    models_ConceptScheme (scheme_args sheet) = inl e →
    first_failure sheet ("ConceptScheme processing error: " +:+ e)
| concept_fails (cs : ConceptScheme) (before after : list nat) (row : nat)
      (st : Convert.State) (e : string) :
    models_ConceptScheme (scheme_args sheet) = inr cs →
    first_column_rows sheet = before ++ row :: after →
    Convert.loop sheet before Convert.initial = inr st →
    Convert.process_concept st = true →
    is_sentinel (cell_value sheet A row) = false →
    nonblank sheet row →
    concept_rejected sheet row e →
    first_failure sheet
      ("Concept processing error, row " +:+ pretty row +:+ ", error: " +:+ e)
| collection_fails (cs : ConceptScheme) (before after : list nat) (row : nat)
      (st : Convert.State) (e : string) :
    models_ConceptScheme (scheme_args sheet) = inr cs →
    first_column_rows sheet = before ++ row :: after →
    Convert.loop sheet before Convert.initial = inr st →
    in_collections st = true →
    is_sentinel (cell_value sheet A row) = false →
    nonblank sheet row →
    collection_rejected sheet row e →
    first_failure sheet
      ("Collection processing error, row " +:+ pretty row +:+ ", error: " +:+ e).

End Rows.

(** The base names that occur again, one entry per occurrence after the
    first, in scan order: the entry at index [i] is kept when it occurs
    among the entries before it. *)
Definition later_occurrences (names : list string) : list string :=
  omap (λ i, x ← names !! i; if bool_decide (x ∈ take i names) then Some x else None)
       (seq 0 (length names)).

(** The occurrences kept when the scan starts with the names of [pre]
    already seen. *)
Definition later_from (pre names : list string) : list string :=
  omap (λ i, x ← names !! i;
             if bool_decide (x ∈ pre ++ take i names) then Some x else None)
       (seq 0 (length names)).

(** A function applied to the first, resp. the last, entry of a list:
    what stripping a text does to its tokens. *)
Definition on_head (f : string → string) (l : list string) : list string :=
  match l with
  | [] => []
  | t :: ts => f t :: ts
  end.

Fixpoint on_last (f : string → string) (l : list string) : list string :=
  match l with
  | [] => []
  | [t] => [f t]
  | t :: ts => t :: on_last f ts
  end.

(** A value that is neither empty nor a text: a number, a date. *)
Definition not_text (v : Value) : Prop :=
  match v with VOther _ => True | _ => False end.

(** A row of data: its first-column cell is neither empty nor a
    sentinel. *)
Definition data_row (s : Worksheet) (row : nat) : Prop :=
  nonblank s row ∧ is_sentinel (cell_value s A row) = false.

Global Instance data_row_dec (s : Worksheet) (row : nat) : Decision (data_row s row).
Proof. unfold data_row. apply _. Defined.

(** The number of entries of a list equal to [x]. *)
Definition occurrences (x : string) (l : list string) : nat :=
  length (filter (λ y, y = x) l).

(** The known file endings: those of the RDF formats and that of the
    spreadsheets. *)
Definition known_endings : list string :=
  [".ttl"; ".rdf"; ".xml"; ".json-ld"; ".json"; ".nt"; ".n3"; ".xlsx"].

(** The file name ends in one of the known endings. *)
Definition has_known_ending (f : string) : Prop :=
  Exists (λ ending, endswith f ending = true) known_endings.

Global Instance has_known_ending_dec (f : string) : Decision (has_known_ending f).
Proof. unfold has_known_ending. apply _. Defined.

Section Directory.
Context {LB : Libraries}.

(** The names without extension of the files of a listing that have a
    known ending, in the order of the listing. *)
Definition known_base_names (listing : list string) : list string :=
  map os_path_splitext_root
      (map os_path_normcase (filter has_known_ending listing)).

End Directory.

Section FailFast.
Context {MD : Models} {LB : Libraries}.

(** The call fails before it opens or reads any file: it raises the same
    error, which is not a [ConversionError], whatever the files hold and
    whatever the other arguments are, and it leaves the files as they
    are. *)
Definition fails_fast (path : Pathlib.Path) : Prop :=
  ∃ e, (∀ msg, e ≠ ConversionError msg) ∧
       ∀ w sheet_name output_type output_file_path,
         (Convert.excel_to_rdf w path sheet_name output_type output_file_path).2
         = inl e ∧
         World.files
           (Convert.excel_to_rdf w path sheet_name output_type output_file_path).1
         = World.files w.

(** What openpyxl does with the file name of the path. It compares the
    extension in lower case with the supported ones and refuses the others
    without reading the file. *)
Definition openpyxl_checks_extension (path : Pathlib.Path) : Prop :=
  lower (extension (Pathlib.name path)) ∉ SUPPORTED_FORMATS →
  ∃ msg, ∀ file,
    openpyxl_load_workbook (Pathlib.str path) file = inl (InvalidFileException msg).

(** With a supported extension it opens the file: a missing file is a
    [FileNotFoundError], and some file content loads as a workbook. *)
Definition openpyxl_opens (path : Pathlib.Path) : Prop :=
  lower (extension (Pathlib.name path)) ∈ SUPPORTED_FORMATS →
  (∃ msg, openpyxl_load_workbook (Pathlib.str path) None
          = inl (FileNotFoundError msg)) ∧
  (∃ file wb, openpyxl_load_workbook (Pathlib.str path) (Some file) = inr wb).

End FailFast.

(** The exceptions of the lookup of the sheet and of the parsing of its
    header block and rows. *)
Definition raised_after_load (e : exn) : Prop :=
  match e with
  | KeyError _ | ConversionError _ | AttributeError _ | ValidationError _ => True
  | _ => False
  end.

(** The first line the command line prints: [print(args.outputfile)]. *)
Definition first_line (args : Convert.Namespace) : string :=
  match Convert.outputfile args with Some f => f | None => "None" end.

End Spec.

(** ** An instance of the collaborators and concrete inputs *)

Module Demo.
Import Py Openpyxl Pathlib World.

(** A required text field: present, a [str], and not empty. *)
Definition required (field : string) (v : Value) : option string :=
  match v with
  | VStr "" => Some (field +:+ ": empty value")
  | VStr _ => None
  | _ => Some (field +:+ ": field required")
  end.

Record Vocab := {
  vocab_scheme : Args.ConceptScheme;
  vocab_concepts : list Args.Concept;
  vocab_collections : list Args.Collection
}.

Definition check {A} (a : A) (errors : list (option string)) : string + A :=
  match omap id errors with
  | [] => inr a
  | e :: _ => inl e
  end.

(** Modelled from the spec: the module [models] of the repository is not
    under src/. The specification has the entities "each validating its own
    fields on construction and failing with a structured validation error on
    bad input", with "all required fields present and well-formed"; here the
    uri and the label (or title) are the required fields, the graph is the
    vocabulary itself and its serialization lists the uris. *)
Definition models : Models := {|
  ConceptScheme := Args.ConceptScheme;
  Concept := Args.Concept;
  Collection := Args.Collection;
  Vocabulary := Vocab;
  Graph := Vocab;
  models_ConceptScheme a :=
    check a [required "uri" (Args.scheme_uri a); required "title" (Args.scheme_title a)];
  models_Concept a :=
    check a [required "uri" (Args.concept_uri a);
             required "pref_label" (Args.concept_pref_label a)];
  models_Collection a :=
    check a [required "uri" (Args.collection_uri a);
             required "pref_label" (Args.collection_pref_label a)];
  models_Vocabulary cs concepts collections :=
    inr {| vocab_scheme := cs; vocab_concepts := concepts;
           vocab_collections := collections |};
  to_graph v := v;
  serialize g :=
    join newline
      (format (Args.scheme_uri (vocab_scheme g))
       :: map (λ c, format (Args.concept_uri c)) (vocab_concepts g)
       ++ map (λ c, format (Args.collection_uri c)) (vocab_collections g))
|}.

(** The listing of the one directory of the examples. *)
Definition listing : list string :=
  ["vocabs/a.xlsx"; "vocabs/b.ttl"; "vocabs/a.ttl"; "vocabs/notes.txt";
   "vocabs/a.rdf"; "vocabs/b.json"].

(** A directory in which files without a known ending share their names
    with files that have one. *)
Definition drafts : list string :=
  ["drafts/a.xlsx"; "drafts/a.txt"; "drafts/b.ttl"; "drafts/b.docx";
   "drafts/c.ttl"; "drafts/c.rdf"].

(** The last component of a file name. *)
Definition basename (filename : string) : string :=
  default "" (last (split "/" filename)).

(** The part of a file name before its last dot. *)
Definition root_of (f : string) : string :=
  match reverse (split "." f) with
  | _ :: (_ :: _) as init => join "." (reverse init)
  | _ => f
  end.

(** Stand-ins for openpyxl, pathlib, pyshacl, [profiles] and [os.path]:
    openpyxl refuses a file name without a supported extension before it
    opens anything, and otherwise a workbook file loads as the workbook it
    holds; the validator accepts a text file that names the shape file it
    is checked against; two profiles are registered. *)
Definition libraries : Libraries := {|
  openpyxl_load_workbook filename file :=
    if bool_decide (lower (extension (basename filename)) ∈ SUPPORTED_FORMATS) then
      match file with
      | Some (XlsxFile wb) => ret wb
      | Some (TextFile _) => raise (InvalidFileException filename)
      | None => raise (FileNotFoundError filename)
      end
    else raise (InvalidFileException filename);
  with_suffix p suffix := {| parents := parents p; name := root_of (name p) +:+ suffix |};
  PROFILES_keys := ["vocpub"; "dd"];
  pyshacl_validate files data shape :=
    match files !! data with
    | Some (TextFile content) =>
        if bool_decide (content = shape) then (true, "Conforms: True")
        else (false, "Conforms: False, shape " +:+ shape)
    | _ => (false, "no data graph")
    end;
  module_parent := {| parents := ["src"]; name := "voc4cat" |};
  glob pattern :=
    if bool_decide (pattern = "vocabs/*.*") then listing
    else if bool_decide (pattern = "drafts/*.*") then drafts
    else [];
  os_path_join a b := a +:+ "/" +:+ b;
  os_path_normcase f := f;
  os_path_splitext_root := root_of
|}.

Definition text (s : string) : Value := VStr s.

(** A vocabulary sheet: header block, concepts section, collections
    section, with a blank separator row in each section. *)
Definition sheet : Worksheet :=
  [ [text "Vocabulary URI"; text "http://example.org/voc"];
    [text "Title"; text "Example"];
    [text "Concept URI"; text "Preferred Label"];
    [text "http://example.org/a"; text "A"; text " x, y ,z"; text "first";
     text "http://example.org/b"];
    [];
    [text "http://example.org/b"; text "B"; VNone; text "second"];
    [text "Collection URI"; text "Preferred Label"];
    [VNone; text "stray"];
    [text "http://example.org/col"; text "Col"; text "both";
     text "http://example.org/a, http://example.org/b"] ].

(** The same sheet with the label of the concept of row 6 missing. *)
Definition bad_sheet : Worksheet :=
  <[5 := [text "http://example.org/b"; VNone; VNone; text "second"]]> sheet.

(** A sheet whose header block has no title. *)
Definition bad_header : Worksheet :=
  <[1 := [text "Title"]]> sheet.

(** A sheet in which the sentinels come back. *)
Definition twice : Worksheet :=
  [ [text "Concept URI"];
    [text "Collection URI"];
    [text "http://example.org/a"; text "A"; text "alt"; text "def";
     text "http://example.org/b"; text "id-1"; text "http://example.org/home";
     text "source"];
    [text "Concept URI"];
    [text "http://example.org/b"; text "B"];
    [text "Collection URI"] ].

Definition introduction (version : Value) : Worksheet :=
  replicate 10 [] ++ [replicate 9 VNone ++ [version]].

Definition workbook (version : Value) : Workbook :=
  [("vocabulary", sheet); ("Introduction", introduction version)].

(** What the extractor is to return on [sheet]. *)
Definition sheet_concepts : list Args.Concept :=
  [ {| Args.concept_uri := text "http://example.org/a";
       Args.concept_pref_label := text "A";
       Args.concept_alt_labels := Some ["x"; "y"; "z"];
       Args.concept_definition := text "first";
       Args.concept_children := Some ["http://example.org/b"];
       Args.concept_other_ids := None;
       Args.concept_home_vocab_uri := VNone;
       Args.concept_provenance := VNone |};
    {| Args.concept_uri := text "http://example.org/b";
       Args.concept_pref_label := text "B";
       Args.concept_alt_labels := None;
       Args.concept_definition := text "second";
       Args.concept_children := None;
       Args.concept_other_ids := None;
       Args.concept_home_vocab_uri := VNone;
       Args.concept_provenance := VNone |} ].

Definition sheet_collections : list Args.Collection :=
  [ {| Args.collection_uri := text "http://example.org/col";
       Args.collection_pref_label := text "Col";
       Args.collection_definition := text "both";
       Args.collection_members :=
         Some ["http://example.org/a"; "http://example.org/b"];
       Args.collection_provenance := VNone |} ].

(** The vocabulary of [sheet], and its graph. *)
Definition sheet_vocabulary : Vocabulary (Models := models) :=
  {| vocab_scheme := Spec.scheme_args sheet;
     vocab_concepts := sheet_concepts;
     vocab_collections := sheet_collections |}.

Definition sheet_graph : Graph (Models := models) :=
  to_graph (Models := models) sheet_vocabulary.

Definition xlsx : Path := {| parents := ["vocabs"]; name := "a.xlsx" |}.
Definition bad_xlsx : Path := {| parents := ["vocabs"]; name := "bad.xlsx" |}.
Definition no_dot : Path := {| parents := []; name := "vocabxlsx" |}.
Definition ttl : Path := {| parents := ["vocabs"]; name := "b.ttl" |}.

Definition world : World :=
  {| files :=
       {[ "vocabs/a.xlsx" := XlsxFile (workbook (text "0.4.3"));
          "vocabs/bad.xlsx" := XlsxFile [("vocabulary", bad_sheet)];
          "vocabs/b.ttl" := TextFile "src/voc4cat/validator.vocpub.ttl" ]};
     loads := [] |}.

(** The command line of the examples. *)
Definition cli : Cli (MD := models) := {|
  profile_uri k := "https://w3id.org/profile/" +:+ k;
  package_version := "0.1.0";
  graph_str g := "<graph>";
  exception_str e :=
    match e with
    | ValueError msg | ConversionError msg | Voc4catError msg
    | AttributeError msg | ValidationError msg
    | InvalidFileException msg | FileNotFoundError msg => msg
    | KeyError key => "'" +:+ key +:+ "'"
    end
|}.

(** A sheet without any sentinel: only the header block and stray rows. *)
Definition no_sentinel : Worksheet :=
  [ [text "Vocabulary URI"; text "http://example.org/voc"];
    [text "Title"; text "Example"];
    [text "http://example.org/a"; VNone] ].

(** The sheet of the examples with a number in the column of the
    alternative labels of row 4. *)
Definition number_sheet : Worksheet :=
  <[3 := [text "http://example.org/a"; VNone; VOther "42"]]> sheet.

(** The sheet of the examples with a note in column I of row 4. *)
Definition noted_sheet : Worksheet :=
  <[3 := [text "http://example.org/a"; text "A"; text " x, y ,z"; text "first";
          text "http://example.org/b"; VNone; VNone; VNone; text "checked"]]> sheet.

Definition upper_xlsx : Path := {| parents := ["vocabs"]; name := "T.XLSX" |}.
Definition old_xlsx : Path := {| parents := ["vocabs"]; name := "old.xlsx" |}.

(** A world with a template of the latest version under an upper case
    name and one of an older version. *)
Definition templates : World :=
  {| files :=
       {[ "vocabs/T.XLSX" := XlsxFile (workbook (text "0.4.3"));
          "vocabs/old.xlsx" := XlsxFile (workbook (text "0.4.2")) ]};
     loads := [] |}.

Definition args (file : Path) (t : Convert.OutputType) : Convert.Namespace :=
  {| Convert.version := false; Convert.listprofiles := false;
     Convert.file_to_convert := file; Convert.validate := false;
     Convert.profile := "vocpub"; Convert.outputtype := t;
     Convert.outputfile := None; Convert.sheet := "vocabulary" |}.

End Demo.

(** ** Properties of the row extractor *)

Section ExtractionFacts.
Context {MD : Models}.
Import Py Openpyxl Convert Spec.

Lemma bind_inr {X Y} (m : M X) (k : X → M Y) (y : Y) :
  bind m k = inr y ↔ ∃ x, m = inr x ∧ k x = inr y.
Proof.
  destruct m as [e|x]; simpl; split.
  - discriminate.
  - intros (x & Hx & _). discriminate.
  - eauto.
  - intros (x' & [= <-] & Hk). exact Hk.
Qed.

Lemma eq_str_true (v : Value) (lit : string) :
  eq_str v lit = true ↔ v = VStr lit.
Proof.
  destruct v; simpl; rewrite ?bool_decide_eq_true; split; congruence.
Qed.

Lemma is_sentinel_false (v : Value) :
  is_sentinel v = false ↔
  eq_str v "Concept URI" = false ∧ eq_str v "Collection URI" = false.
Proof. unfold is_sentinel. apply orb_false_iff. Qed.

Lemma loop_app (s : Worksheet) (l1 l2 : list nat) (st : State) :
  loop s (l1 ++ l2) st = (st' <~ loop s l1 st;; loop s l2 st').
Proof.
  revert st. induction l1 as [|r l1 IH]; intros st; simpl; [done|].
  destruct (step s st r) as [e|st1]; simpl; [done|]. apply IH.
Qed.

Lemma make_concept_inr (s : Worksheet) (row : nat) (c : Concept) :
  make_concept s row = inr c ↔ concept_at s row c.
Proof.
  unfold make_concept, concept_at. split.
  - intros Hm.
    apply bind_inr in Hm as (al & Hal & Hm).
    apply bind_inr in Hm as (ch & Hch & Hm).
    apply bind_inr in Hm as (oi & Hoi & Hm).
    exists al, ch, oi. repeat split; try done.
    destruct (models_Concept _) as [e|c'] eqn:Hc; [done|].
    by injection Hm as ->.
  - intros (al & ch & oi & -> & -> & -> & Hc). simpl. by rewrite Hc.
Qed.

Lemma make_collection_inr (s : Worksheet) (row : nat) (c : Collection) :
  make_collection s row = inr c ↔ collection_at s row c.
Proof.
  unfold make_collection, collection_at. split.
  - intros Hm.
    apply bind_inr in Hm as (ms & Hms & Hm).
    exists ms. split; [done|].
    destruct (models_Collection _) as [e|c'] eqn:Hc; [done|].
    by injection Hm as ->.
  - intros (ms & -> & Hc). simpl. by rewrite Hc.
Qed.

Lemma make_concept_inl (s : Worksheet) (row : nat) (e : string) :
  concept_rejected s row e → make_concept s row = inl (concept_error row e).
Proof.
  intros (al & ch & oi & Hal & Hch & Hoi & Hc).
  unfold make_concept. rewrite Hal, Hch, Hoi. simpl. by rewrite Hc.
Qed.

Lemma make_collection_inl (s : Worksheet) (row : nat) (e : string) :
  collection_rejected s row e → make_collection s row = inl (collection_error row e).
Proof.
  intros (ms & Hms & Hc).
  unfold make_collection. rewrite Hms. simpl. by rewrite Hc.
Qed.

(** An empty first-column cell leaves every local variable as it is. *)
Lemma step_blank (s : Worksheet) (st : State) (row : nat) :
  cell_value s A row = VNone → step s st row = inr st.
Proof.
  intros Hv. unfold step. rewrite Hv. simpl.
  by destruct (process_concept st), (process_collection st).
Qed.

(** Before the first sentinel nothing is parsed. *)
Lemma step_scanning (s : Worksheet) (st : State) (row : nat) :
  process_concept st = false → process_collection st = false →
  is_sentinel (cell_value s A row) = false →
  step s st row = inr st.
Proof.
  intros Hc Hl (H1 & H2)%is_sentinel_false.
  unfold step. by rewrite H1, H2, Hc, Hl.
Qed.

Lemma loop_scanning (s : Worksheet) (st : State) (rows : list nat) :
  process_concept st = false → process_collection st = false →
  (∀ r, r ∈ rows → is_sentinel (cell_value s A r) = false) →
  loop s rows st = inr st.
Proof.
  intros Hc Hl. induction rows as [|r rows IH]; intros Hrows; simpl; [done|].
  rewrite step_scanning by (try done; apply Hrows; left). simpl.
  apply IH. intros r' Hr'. apply Hrows. by right.
Qed.

(** The two sentinels set the flags and touch neither list. *)
Lemma step_concept_sentinel (s : Worksheet) (st : State) (row : nat) :
  cell_value s A row = VStr "Concept URI" →
  step s st row =
    inr {| concepts := concepts st; collections := collections st;
           process_concept := true;
           process_collection := process_collection st |}.
Proof. intros Hv. unfold step. by rewrite Hv. Qed.

Lemma step_collection_sentinel (s : Worksheet) (st : State) (row : nat) :
  cell_value s A row = VStr "Collection URI" →
  step s st row =
    inr {| concepts := concepts st; collections := collections st;
           process_concept := false; process_collection := true |}.
Proof. intros Hv. unfold step. by rewrite Hv. Qed.

(** A data row of the concepts section. *)
Lemma step_concept_row (s : Worksheet) (st : State) (row : nat) :
  process_concept st = true →
  is_sentinel (cell_value s A row) = false →
  cell_value s A row ≠ VNone →
  step s st row =
    (c <~ make_concept s row;;
     ret {| concepts := concepts st ++ [c]; collections := collections st;
            process_concept := process_concept st;
            process_collection := process_collection st |}).
Proof.
  intros Hc (H1 & H2)%is_sentinel_false Hv.
  unfold step. rewrite H1, H2, Hc.
  by destruct (cell_value s A row).
Qed.

(** A data row of the collections section. *)
Lemma step_collection_row (s : Worksheet) (st : State) (row : nat) :
  process_concept st = false → process_collection st = true →
  is_sentinel (cell_value s A row) = false →
  cell_value s A row ≠ VNone →
  step s st row =
    (c <~ make_collection s row;;
     ret {| concepts := concepts st; collections := collections st ++ [c];
            process_concept := process_concept st;
            process_collection := process_collection st |}).
Proof.
  intros Hc Hl (H1 & H2)%is_sentinel_false Hv.
  unfold step. rewrite H1, H2, Hc, Hl.
  by destruct (cell_value s A row).
Qed.

End ExtractionFacts.

Section RowExtractor.
Context {MD : Models}.
Import Py Openpyxl Convert Spec.

(** The concepts section: the loop appends exactly the concepts of the
    rows with a first-column cell, in the order of the rows. *)
Lemma loop_concepts (s : Worksheet) (rows : list nat) :
  (∀ r, r ∈ rows → is_sentinel (cell_value s A r) = false) →
  ∀ st st', process_concept st = true →
    loop s rows st = inr st' ↔
    ∃ cs, Forall2 (concept_at s) (filter (nonblank s) rows) cs ∧
          st' = {| concepts := concepts st ++ cs; collections := collections st;
                   process_concept := true;
                   process_collection := process_collection st |}.
Proof.
  induction rows as [|r rows IH]; intros Hrows st st' Hpc.
  - simpl. split.
    + intros [= <-]. exists []. split; [constructor|].
      rewrite app_nil_r. destruct st; simpl in *. by subst.
    + intros (cs & ->%Forall2_nil_inv_l & ->).
      rewrite app_nil_r. destruct st; simpl in *. by subst.
  - assert (Hr : is_sentinel (cell_value s A r) = false) by (apply Hrows; left).
    assert (Hrest : ∀ r', r' ∈ rows → is_sentinel (cell_value s A r') = false)
      by (intros r' Hr'; apply Hrows; by right).
    rewrite filter_cons. cbn [loop].
    destruct (decide (nonblank s r)) as [Hv|Hv]; unfold nonblank in Hv.
    + rewrite step_concept_row by done.
      destruct (make_concept s r) as [e|c] eqn:Hmk; simpl.
      * split; [done|]. intros (cs & Hcs & _).
        apply Forall2_cons_inv_l in Hcs as (c & cs' & Hc%make_concept_inr & _ & _).
        congruence.
      * rewrite IH by done. simpl. split.
        -- intros (cs & Hcs & ->). exists (c :: cs). split.
           ++ constructor; [by apply make_concept_inr|done].
           ++ by rewrite <- app_assoc.
        -- intros (cs & Hcs & ->).
           apply Forall2_cons_inv_l in Hcs as (c' & cs' & Hc%make_concept_inr & Hcs & ->).
           assert (c' = c) as -> by congruence.
           exists cs'. split; [done|]. by rewrite <- app_assoc.
    + apply dec_stable in Hv. rewrite step_blank by done. simpl. by apply IH.
Qed.

(** The collections section, likewise. *)
Lemma loop_collections (s : Worksheet) (rows : list nat) :
  (∀ r, r ∈ rows → is_sentinel (cell_value s A r) = false) →
  ∀ st st', process_concept st = false → process_collection st = true →
    loop s rows st = inr st' ↔
    ∃ ls, Forall2 (collection_at s) (filter (nonblank s) rows) ls ∧
          st' = {| concepts := concepts st; collections := collections st ++ ls;
                   process_concept := false; process_collection := true |}.
Proof.
  induction rows as [|r rows IH]; intros Hrows st st' Hpc Hpl.
  - simpl. split.
    + intros [= <-]. exists []. split; [constructor|].
      rewrite app_nil_r. destruct st; simpl in *. by subst.
    + intros (ls & ->%Forall2_nil_inv_l & ->).
      rewrite app_nil_r. destruct st; simpl in *. by subst.
  - assert (Hr : is_sentinel (cell_value s A r) = false) by (apply Hrows; left).
    assert (Hrest : ∀ r', r' ∈ rows → is_sentinel (cell_value s A r') = false)
      by (intros r' Hr'; apply Hrows; by right).
    rewrite filter_cons. cbn [loop].
    destruct (decide (nonblank s r)) as [Hv|Hv]; unfold nonblank in Hv.
    + rewrite step_collection_row by done.
      destruct (make_collection s r) as [e|c] eqn:Hmk; simpl.
      * split; [done|]. intros (ls & Hls & _).
        apply Forall2_cons_inv_l in Hls as (c & ls' & Hc%make_collection_inr & _ & _).
        congruence.
      * rewrite IH by done. simpl. split.
        -- intros (ls & Hls & ->). exists (c :: ls). split.
           ++ constructor; [by apply make_collection_inr|done].
           ++ by rewrite <- app_assoc.
        -- intros (ls & Hls & ->).
           apply Forall2_cons_inv_l in Hls as (c' & ls' & Hc%make_collection_inr & Hls & ->).
           assert (c' = c) as -> by congruence.
           exists ls'. split; [done|]. by rewrite <- app_assoc.
    + apply dec_stable in Hv. rewrite step_blank by done. simpl. by apply IH.
Qed.

(** The rows of a sheet in the fixed layout: the rows before the concepts
    header, the header, the concept rows, the collections header, the
    collection rows. *)
Lemma fixed_layout_rows (s : Worksheet) (i1 i2 : nat) :
  fixed_layout s i1 i2 →
  first_column_rows s =
    seq 1 (i1 - 1) ++ [i1] ++ seq (i1 + 1) (i2 - (i1 + 1)) ++ [i2]
    ++ seq (i2 + 1) (max_row s + 1 - (i2 + 1)).
Proof.
  intros [(H1 & H2 & H3) _ _ _]. unfold first_column_rows.
  replace (max_row s)
    with ((i1 - 1) + (1 + ((i2 - (i1 + 1)) + (1 + (max_row s + 1 - (i2 + 1))))))
    at 1 by lia.
  rewrite !seq_app. simpl.
  repeat (f_equal; try lia).
Qed.

(** C1. On a sheet in the fixed layout all of whose data rows pass
    validation, the extractor returns the concepts, then the collections,
    each sequence in the order of the worksheet rows, a concept populated
    from the columns A to H of its row and a collection from the columns A
    to E of its row; and it returns nothing else. *)
Theorem extraction_in_row_order (s : Worksheet) (i1 i2 : nat)
    (cs : list Concept) (ls : list Collection) :
  fixed_layout s i1 i2 →
  extract_concepts_and_collections s = inr (cs, ls) ↔
  Forall2 (concept_at s) (data_rows s (i1 + 1) i2) cs ∧
  Forall2 (collection_at s) (data_rows s (i2 + 1) (max_row s + 1)) ls.
Proof.
  intros Hlay. pose proof (fixed_layout_rows s i1 i2 Hlay) as Hrows.
  destruct Hlay as [(H1 & H2 & H3) Hc Hl Hdata].
  unfold extract_concepts_and_collections. rewrite Hrows.
  rewrite loop_app, loop_scanning; try done; cycle 1.
  { intros r Hr%elem_of_seq. apply Hdata; lia. }
  simpl. rewrite step_concept_sentinel by done. simpl.
  rewrite loop_app.
  set (st1 := {| concepts := []; collections := []; process_concept := true;
                 process_collection := false |}).
  assert (Hsec1 : ∀ r, r ∈ seq (i1 + 1) (i2 - (i1 + 1)) →
                       is_sentinel (cell_value s A r) = false).
  { intros r Hr%elem_of_seq. apply Hdata; lia. }
  assert (Hsec2 : ∀ r, r ∈ seq (i2 + 1) (max_row s + 1 - (i2 + 1)) →
                       is_sentinel (cell_value s A r) = false).
  { intros r Hr%elem_of_seq. apply Hdata; lia. }
  unfold data_rows. split.
  - intros (st & Hloop & [= <- <-])%bind_inr.
    apply bind_inr in Hloop as (st2 & Hloop1 & Hloop2).
    apply (loop_concepts s _ Hsec1) in Hloop1 as (cs' & Hcs & ->); [|done].
    simpl in Hloop2. rewrite step_collection_sentinel in Hloop2 by done.
    simpl in Hloop2.
    apply (loop_collections s _ Hsec2) in Hloop2 as (ls' & Hls & ->); done.
  - intros [Hcs Hls].
    assert (loop s (seq (i1 + 1) (i2 - (i1 + 1))) st1
            = inr {| concepts := cs; collections := [];
                     process_concept := true; process_collection := false |})
      as ->.
    { apply (loop_concepts s _ Hsec1); [done|]. by exists cs. }
    simpl. rewrite step_collection_sentinel by done. simpl.
    assert (loop s (seq (i2 + 1) (max_row s + 1 - (i2 + 1)))
                 {| concepts := cs; collections := [];
                    process_concept := false; process_collection := true |}
            = inr {| concepts := cs; collections := ls;
                     process_concept := false; process_collection := true |})
      as ->.
    { apply (loop_collections s _ Hsec2); [done..|]. by exists ls. }
    done.
Qed.

(** C5. A row whose first-column cell is empty is skipped in whatever
    state the loop is: the step returns the state it was given (no entity
    added, no error, the section flags as they were), so the run over the
    rows is the run over the rows without it. *)
Theorem blank_row_is_skipped (s : Worksheet) (row : nat) :
  cell_value s A row = VNone →
  (∀ st, step s st row = inr st) ∧
  (∀ before after st,
     loop s (before ++ row :: after) st = loop s (before ++ after) st).
Proof.
  intros Hv. split.
  - intros st. by apply step_blank.
  - intros before after st. rewrite !loop_app.
    destruct (loop s before st) as [e|st1]; simpl; [done|].
    by rewrite step_blank.
Qed.

End RowExtractor.

Section Sentinels.
Context {MD : Models}.
Import Py Openpyxl Convert Spec.

(** The loop enters the collections state only at the sentinel. *)
Lemma step_enters_collections (s : Worksheet) (st st' : State) (row : nat) :
  step s st row = inr st' →
  in_collections st = false → in_collections st' = true →
  cell_value s A row = VStr "Collection URI".
Proof.
  unfold step, in_collections. intros Hstep Hout Hin.
  destruct (eq_str (cell_value s A row) "Concept URI").
  { injection Hstep as <-. simpl in Hin. done. }
  destruct (eq_str (cell_value s A row) "Collection URI") eqn:Hl.
  { by apply eq_str_true. }
  assert (Hsame : process_concept st' = process_concept st ∧
                  process_collection st' = process_collection st).
  { destruct st as [cs ls [] []]; simpl in *;
      destruct (is_None (cell_value s A row));
      first [ by injection Hstep as <-
            | by apply bind_inr in Hstep as (c & _ & [= <-]) ]. }
  destruct Hsame as [H1 H2]. rewrite H1, H2 in Hin. congruence.
Qed.

(** In the collections state a row other than the concepts header adds no
    concept and leaves the loop in the collections state. *)
Lemma step_in_collections (s : Worksheet) (st st' : State) (row : nat) :
  in_collections st = true →
  cell_value s A row ≠ VStr "Concept URI" →
  step s st row = inr st' →
  concepts st' = concepts st ∧ in_collections st' = true.
Proof.
  unfold step, in_collections.
  intros [Hpc%negb_true_iff Hpl]%andb_true_iff Hv Hstep.
  destruct (eq_str (cell_value s A row) "Concept URI") eqn:Hc.
  { by apply eq_str_true in Hc. }
  destruct (eq_str (cell_value s A row) "Collection URI").
  { by injection Hstep as <-. }
  rewrite Hpc, Hpl in Hstep.
  destruct (is_None (cell_value s A row)).
  - injection Hstep as <-. by rewrite Hpc, Hpl.
  - apply bind_inr in Hstep as (c & _ & [= <-]). done.
Qed.

Lemma loop_in_collections (s : Worksheet) (rows : list nat) (st st' : State) :
  in_collections st = true →
  (∀ r, r ∈ rows → cell_value s A r ≠ VStr "Concept URI") →
  loop s rows st = inr st' →
  concepts st' = concepts st ∧ in_collections st' = true.
Proof.
  revert st. induction rows as [|r rows IH]; intros st Hin Hrows Hloop.
  - by injection Hloop as <-.
  - simpl in Hloop. apply bind_inr in Hloop as (st1 & Hstep & Hloop).
    apply step_in_collections in Hstep as [Hcs Hin1]; [|done|apply Hrows; left].
    apply IH in Hloop as [Hcs' Hin']; [|done|].
    + split; [congruence|done].
    + intros r' Hr'. apply Hrows. by right.
Qed.

(** C2, as the code has it. In a run that completes, the loop enters the
    collections state only at a first-column cell equal to "Collection
    URI"; that row sets the flags and adds no entity; a first-column cell
    equal to "Concept URI" adds no entity either, leaves the collections
    state and switches the parsing of concepts on, and while it is on and
    no later cell is a sentinel the rows with a first-column cell are
    parsed as concepts, in order. After a transition, as long as no later
    cell of the column is "Concept URI", no row adds a concept and the
    loop stays in the collections state; and when no later cell is a
    sentinel, the rows with a first-column cell are parsed as collections,
    in order. *)
Theorem collections_only_after_sentinel (s : Worksheet)
    (before after : list nat) (row : nat) (st_end : State) :
  loop s (before ++ row :: after) initial = inr st_end →
  ∃ st st',
    loop s before initial = inr st ∧
    step s st row = inr st' ∧
    loop s after st' = inr st_end ∧
    (in_collections st = false → in_collections st' = true →
     cell_value s A row = VStr "Collection URI") ∧
    (cell_value s A row = VStr "Collection URI" →
     in_collections st' = true ∧
     concepts st' = concepts st ∧ collections st' = collections st) ∧
    (cell_value s A row = VStr "Concept URI" →
     process_concept st' = true ∧ in_collections st' = false ∧
     concepts st' = concepts st ∧ collections st' = collections st) ∧
    (process_concept st' = true →
     (∀ r, r ∈ after → is_sentinel (cell_value s A r) = false) →
     ∃ cs, Forall2 (concept_at s) (filter (nonblank s) after) cs ∧
           concepts st_end = concepts st' ++ cs ∧
           collections st_end = collections st') ∧
    (in_collections st' = true →
     (∀ r, r ∈ after → cell_value s A r ≠ VStr "Concept URI") →
     concepts st_end = concepts st' ∧ in_collections st_end = true) ∧
    (in_collections st' = true →
     (∀ r, r ∈ after → is_sentinel (cell_value s A r) = false) →
     ∃ ls, Forall2 (collection_at s) (filter (nonblank s) after) ls ∧
           collections st_end = collections st' ++ ls).
Proof.
  rewrite loop_app. intros (st & Hbefore & Hrest)%bind_inr.
  simpl in Hrest. apply bind_inr in Hrest as (st' & Hstep & Hafter).
  exists st, st'. split; [done|]. split; [done|]. split; [done|].
  split; [by apply step_enters_collections|].
  split.
  { intros Hv. rewrite step_collection_sentinel in Hstep by done.
    by injection Hstep as <-. }
  split.
  { intros Hv. rewrite step_concept_sentinel in Hstep by done.
    by injection Hstep as <-. }
  split.
  { intros Hpc Hrows.
    apply (loop_concepts s after Hrows) in Hafter as (cs & Hcs & ->); [|done].
    by exists cs. }
  split.
  { intros Hin Hrows. by eapply loop_in_collections. }
  intros [Hpc%negb_true_iff Hpl]%andb_true_iff Hrows.
  apply (loop_collections s after Hrows) in Hafter as (ls & Hls & ->); [|done..].
  by exists ls.
Qed.

End Sentinels.

(** ** Validation failures *)

Section Failures.
Context {MD : Models} {LB : Libraries}.
Import Py Openpyxl Pathlib World Convert Spec.

(** The extractor stops at the first row whose concept is rejected. *)
Lemma extract_stops_at_bad_concept (s : Worksheet) (before after : list nat)
    (row : nat) (st : State) (e : string) :
  first_column_rows s = before ++ row :: after →
  loop s before initial = inr st →
  process_concept st = true →
  is_sentinel (cell_value s A row) = false →
  nonblank s row →
  concept_rejected s row e →
  extract_concepts_and_collections s = inl (concept_error row e).
Proof.
  intros Hrows Hbefore Hpc Hsent Hv Hrej.
  unfold extract_concepts_and_collections.
  rewrite Hrows, loop_app, Hbefore. simpl.
  rewrite step_concept_row by done.
  by rewrite (make_concept_inl s row e Hrej).
Qed.

(** The extractor stops at the first row whose collection is rejected. *)
Lemma extract_stops_at_bad_collection (s : Worksheet) (before after : list nat)
    (row : nat) (st : State) (e : string) :
  first_column_rows s = before ++ row :: after →
  loop s before initial = inr st →
  in_collections st = true →
  is_sentinel (cell_value s A row) = false →
  nonblank s row →
  collection_rejected s row e →
  extract_concepts_and_collections s = inl (collection_error row e).
Proof.
  intros Hrows Hbefore [Hpc%negb_true_iff Hpl]%andb_true_iff Hsent Hv Hrej.
  unfold extract_concepts_and_collections.
  rewrite Hrows, loop_app, Hbefore. simpl.
  rewrite step_collection_row by done.
  by rewrite (make_collection_inl s row e Hrej).
Qed.

Lemma make_concept_scheme_eq (sheet : Worksheet) :
  make_concept_scheme sheet =
    match models_ConceptScheme (scheme_args sheet) with
    | inr cs => inr cs
    | inl e => inl (ConversionError ("ConceptScheme processing error: " +:+ e))
    end.
Proof. reflexivity. Qed.

(** The vocabulary is not built when a domain construction fails. *)
Lemma build_vocabulary_fails (sheet : Worksheet) (msg : string) :
  first_failure sheet msg →
  build_vocabulary sheet = inl (ConversionError msg).
Proof.
  unfold build_vocabulary. rewrite make_concept_scheme_eq.
  intros [e He|cs before after row st e Hcs Hrows Hloop Hpc Hsent Hv Hrej
           |cs before after row st e Hcs Hrows Hloop Hpc Hsent Hv Hrej].
  - by rewrite He.
  - rewrite Hcs. simpl.
    by erewrite extract_stops_at_bad_concept.
  - rewrite Hcs. simpl.
    by erewrite extract_stops_at_bad_collection.
Qed.


(** A header block without title, with the models of the examples. *)
Example header_failure_example :
  build_vocabulary (MD := Demo.models) Demo.bad_header
  = inl (ConversionError "ConceptScheme processing error: title: field required").
Proof. reflexivity. Qed.

End Failures.

(** ** The orchestrators *)

Section OrchestratorFacts.
Context {MD : Models} {LB : Libraries}.
Import Py Openpyxl Pathlib World Convert Spec.

(** A name that does not end in "xlsx" is refused before anything is
    loaded: the world is returned as it was. *)
Lemma excel_gate_refuses (w : World) (path : Path) (sheet_name : option string)
    (output_type : string) (output_file_path : option Path) :
  endswith_any (name path) EXCEL_FILE_ENDINGS = false →
  excel_to_rdf w path sheet_name output_type output_file_path =
    (w, inl (ValueError "Files for conversion to RDF must be Excel files ending .xlsx")).
Proof. intros Hgate. unfold excel_to_rdf. by rewrite Hgate. Qed.

(** Past the gate the workbook is loaded, whatever comes next. *)
Lemma excel_gate_loads (w : World) (path : Path) (sheet_name : option string)
    (output_type : string) (output_file_path : option Path) :
  endswith_any (name path) EXCEL_FILE_ENDINGS = true →
  loads (excel_to_rdf w path sheet_name output_type output_file_path).1
  = loads w ++ [str path].
Proof.
  intros Hgate. unfold excel_to_rdf, load_workbook. rewrite Hgate. simpl.
  destruct (_ <~ openpyxl_load_workbook _ _;; _) as [e|v]; [done|].
  repeat case_bool_decide; done.
Qed.

(** What [excel_to_rdf] returns is decided by its arguments and by what
    the file system holds under the input path. *)
Lemma excel_to_rdf_reads_input_only (w1 w2 : World) (path : Path)
    (sheet_name : option string) (output_type : string)
    (output_file_path : option Path) :
  files w1 !! str path = files w2 !! str path →
  (excel_to_rdf w1 path sheet_name output_type output_file_path).2
  = (excel_to_rdf w2 path sheet_name output_type output_file_path).2.
Proof.
  intros Hin. unfold excel_to_rdf, load_workbook.
  destruct (negb _); [done|]. simpl. rewrite Hin.
  destruct (_ <~ openpyxl_load_workbook _ _;; _) as [e|v]; [done|].
  repeat case_bool_decide; done.
Qed.

(** X13. A run of [excel_to_rdf] writes at most the destination it
    returns: every other file, the input among them when it is not the
    destination, is as before, whether the run returns or raises. *)
Lemma excel_to_rdf_writes_dest_only (w : World) (path : Path)
    (sheet_name : option string) (output_type : string)
    (output_file_path : option Path) (p : string) :
  let run := excel_to_rdf w path sheet_name output_type output_file_path in
  (∀ dest, run.2 = inr (OPath dest) → str dest ≠ p) →
  files run.1 !! p = files w !! p.
Proof.
  cbv zeta. unfold excel_to_rdf, load_workbook.
  destruct (negb _); [done|]. simpl.
  destruct (_ <~ openpyxl_load_workbook _ _;; _) as [e|v]; [done|].
  repeat case_bool_decide; try done.
  simpl. intros Hdest. apply lookup_insert_ne. by apply Hdest.
Qed.


End OrchestratorFacts.

Section OrchestratorGates.
Context {MD : Models} {LB : Libraries}.
Import Py Openpyxl Pathlib World Convert Spec.

(** C7, evaluated. For a file name with an RDF ending and a registered
    profile, [rdf_to_excel] validates against the shape file
    validator.vocpub.ttl next to the module, whatever the profile is; the
    profile only appears in the message. A failed validation raises a
    [ConversionError] that ends with the report, a successful one returns
    nothing; the world is left as it was. *)
Theorem rdf_gate_validates_against_vocpub (w : World) (path : Path)
    (profile : string) (output_file_path : option Path) :
  endswith_any (name path) RDF_FILE_ENDINGS = true →
  profile ∈ PROFILES_keys →
  rdf_to_excel w path profile output_file_path =
    let shape :=
      str {| parents := parents module_parent ++ [name module_parent];
             name := "validator.vocpub.ttl" |} in
    let r := pyshacl_validate (files w) (str path) shape in
    (w, if r.1 then inr ONone
        else inl (ConversionError
               ("The file you supplied is not valid according to the " +:+ profile
                +:+ " profile. The validation errors are:" +:+ newline +:+ newline
                +:+ r.2))).
Proof.
  intros Hgate Hprofile. unfold rdf_to_excel. rewrite Hgate. simpl.
  rewrite bool_decide_eq_true_2 by done. simpl.
  fold shacl_graph. by destruct (pyshacl_validate _ _ _) as [[] report].
Qed.

End OrchestratorGates.

(** ** The template version gate, the field splitter and the directory scan *)

Section UtilsFacts.
Import Py Openpyxl Utils Spec.

Lemma getitem_absent (wb : Workbook) (title : string) :
  title ∉ wb.*1 → getitem wb title = inl (KeyError title).
Proof.
  induction wb as [|[t s] wb IH]; simpl; [done|].
  intros Hnot. apply not_elem_of_cons in Hnot as [Hne Hnot].
  rewrite bool_decide_eq_false_2 by done. by apply IH.
Qed.

Lemma getitem_exn (wb : Workbook) (title : string) (e : exn) :
  getitem wb title = inl e → e = KeyError title.
Proof.
  induction wb as [|[t s] wb IH]; simpl.
  - by intros [= <-].
  - case_bool_decide; [done|]. apply IH.
Qed.

(** The only error of [get_template_version] is the undeterminable
    version. *)
Lemma get_template_version_exn (wb : Workbook) (e : exn) :
  get_template_version wb = inl e → e = Voc4catError undeterminable.
Proof.
  unfold get_template_version.
  destruct (getitem wb "Introduction") as [e'|intro_sheet] eqn:Hget; [|done].
  apply getitem_exn in Hget as ->. by intros [= <-].
Qed.

Lemma not_in_known (v : Value) :
  not_in v KNOWN_TEMPLATE_VERSIONS = false ↔ v = VStr "0.4.3".
Proof.
  unfold not_in, KNOWN_TEMPLATE_VERSIONS. simpl.
  rewrite orb_false_r, negb_false_iff. apply eq_str_true.
Qed.

(** C6, as the code has it. The gate raises "cannot be determined" when
    the workbook has no sheet "Introduction", raises "Unsupported template
    version", with the supported versions ("0.4.3") and the supplied one,
    when the cell J11 of that sheet is not a supported version, and
    otherwise returns [True]. *)
Theorem template_version_gate (wb : Workbook) :
  ("Introduction" ∉ wb.*1 →
   is_supported_template wb =
     inl (Voc4catError "The version of the Excel template cannot be determined.")) ∧
  (∀ intro_sheet, getitem wb "Introduction" = inr intro_sheet →
     (cell_value intro_sheet J 11 ∉ VStr <$> KNOWN_TEMPLATE_VERSIONS →
      is_supported_template wb =
        inl (Voc4catError
               ("Unsupported template version. Supported are 0.4.3, you supplied "
                +:+ format (cell_value intro_sheet J 11) +:+ "."))) ∧
     (cell_value intro_sheet J 11 ∈ VStr <$> KNOWN_TEMPLATE_VERSIONS →
      is_supported_template wb = inr (OBool true))).
Proof.
  unfold is_supported_template, get_template_version. split.
  - intros Habsent. by rewrite getitem_absent.
  - intros intro_sheet ->. cbn [bind ret]. split.
    + intros Hnot.
      destruct (not_in _ _) eqn:Hin; [done|].
      apply (proj1 (not_in_known _)) in Hin. rewrite Hin in Hnot.
      exfalso. apply Hnot. apply list_elem_of_fmap. exists "0.4.3".
      split; [done|]. by apply list_elem_of_singleton.
    + intros Hin.
      assert (cell_value intro_sheet J 11 = VStr "0.4.3") as Hv.
      { apply list_elem_of_fmap in Hin as (v & -> & Hv).
        by apply list_elem_of_singleton in Hv as ->. }
      by rewrite (proj2 (not_in_known _) Hv).
Qed.

End UtilsFacts.

Section DirectoryScan.
Context {LB : Libraries}.
Import Py Utils Spec.

Lemma size_list_to_set_le (l : list string) :
  size (list_to_set l : gset string) ≤ length l.
Proof.
  induction l as [|x l IH].
  - by rewrite list_to_set_nil, size_empty.
  - rewrite list_to_set_cons, size_union_alt, size_singleton. simpl.
    assert (Hsub : list_to_set l ∖ {[x]} ⊆ (list_to_set l : gset string)).
    { intros y Hy. by apply elem_of_difference in Hy as [? _]. }
    apply subseteq_size in Hsub. lia.
Qed.

(** [len(file_names) == len(set(file_names))] holds exactly when no name
    occurs twice. *)
Lemma length_eq_size_NoDup (l : list string) :
  length l = size (list_to_set l : gset string) ↔ NoDup l.
Proof.
  split; [|intros Hl; by rewrite size_list_to_set].
  induction l as [|x l IH]; [constructor|].
  intros Hlen. pose proof (size_list_to_set_le l) as Hle.
  rewrite list_to_set_cons, size_union_alt, size_singleton in Hlen.
  simpl in Hlen.
  destruct (decide (x ∈ l)) as [Hx|Hx].
  - exfalso.
    assert (Hlt : list_to_set l ∖ {[x]} ⊂ (list_to_set l : gset string)).
    { split.
      - intros y Hy. by apply elem_of_difference in Hy as [? _].
      - intros Hsub. specialize (Hsub x).
        rewrite elem_of_difference, elem_of_list_to_set, elem_of_singleton in Hsub.
        by destruct Hsub. }
    apply subset_size in Hlt. lia.
  - constructor; [done|]. apply IH.
    assert (list_to_set l ∖ {[x]} = (list_to_set l : gset string)) as Heq.
    { apply set_eq. intros y.
      rewrite elem_of_difference, elem_of_list_to_set, elem_of_singleton.
      split; [by intros [? _]|]. intros Hy. split; [done|]. by intros ->. }
    rewrite Heq in Hlen. lia.
Qed.

Lemma later_from_nil (names : list string) :
  later_from [] names = later_occurrences names.
Proof. reflexivity. Qed.

Lemma later_from_cons (pre : list string) (x : string) (names : list string) :
  later_from pre (x :: names) =
    (if bool_decide (x ∈ pre) then [x] else []) ++ later_from (pre ++ [x]) names.
Proof.
  unfold later_from. cbn [length seq]. rewrite <- fmap_S_seq. csimpl.
  assert (omap (λ i, y ← (x :: names) !! i;
                     if bool_decide (y ∈ pre ++ take i (x :: names))
                     then Some y else None) (S <$> seq 0 (length names))
          = omap (λ i, y ← names !! i;
                       if bool_decide (y ∈ (pre ++ [x]) ++ take i names)
                       then Some y else None) (seq 0 (length names))) as ->.
  { apply list_omap_ext. apply Forall2_fmap_l, Forall_Forall2_diag, Forall_forall.
    intros i _. simpl. by rewrite <- app_assoc. }
  rewrite app_nil_r. by case_bool_decide.
Qed.

Lemma later_from_ext (pre pre' names : list string) :
  (∀ x, x ∈ pre ↔ x ∈ pre') → later_from pre names = later_from pre' names.
Proof.
  intros Hpre. unfold later_from. apply list_omap_ext.
  apply Forall_Forall2_diag, Forall_forall. intros i _.
  destruct (names !! i) as [y|]; simpl; [|done].
  erewrite bool_decide_ext; [done|]. rewrite !elem_of_app. by rewrite Hpre.
Qed.

(** The comprehension over [seen] keeps the entries that occur before
    themselves. *)
Lemma seen_before_later_from (names pre : list string) (seen : gset string) :
  (∀ x, x ∈ seen ↔ x ∈ pre) →
  seen_before seen names = later_from pre names.
Proof.
  revert pre seen. induction names as [|x names IH]; intros pre seen Hseen.
  { done. }
  rewrite later_from_cons. simpl.
  case_bool_decide as Hx.
  - rewrite bool_decide_eq_true_2 by by apply Hseen. simpl. f_equal.
    rewrite (IH pre seen Hseen). apply later_from_ext.
    intros y. rewrite elem_of_app, list_elem_of_singleton.
    apply Hseen in Hx. split; [by left|]. by intros [?| ->].
  - rewrite bool_decide_eq_false_2 by by rewrite <- Hseen. simpl.
    apply IH. intros y. rewrite elem_of_app, list_elem_of_singleton.
    rewrite elem_of_union, elem_of_singleton, Hseen. tauto.
Qed.

(** The test of the comprehension is the test for a known ending. *)
Lemma endswith_any_known (f : string) :
  endswith_any f KNOWN_FILE_ENDINGS = true ↔ has_known_ending f.
Proof.
  unfold endswith_any, has_known_ending.
  change KNOWN_FILE_ENDINGS with known_endings.
  rewrite existsb_exists, Exists_exists.
  split; intros (e & He & Hend); exists e; split;
    first [done | by apply list_elem_of_In].
Qed.

(** The names the scan works on are those of the files of the listing of
    [dir_/*.*] that have a known ending. *)
Lemma file_names_known (dir_ : string) :
  file_names dir_ = known_base_names (glob (os_path_join dir_ "*.*")).
Proof.
  unfold file_names, known_base_names. do 2 f_equal.
  induction (glob (os_path_join dir_ "*.*")) as [|f l IH]; [done|].
  cbn [List.filter]. rewrite filter_cons.
  destruct (endswith_any f KNOWN_FILE_ENDINGS) eqn:Hf.
  - rewrite decide_True by by apply endswith_any_known. by rewrite IH.
  - rewrite decide_False; [done|].
    intros Hk%endswith_any_known. congruence.
Qed.

(** C10. Of the files that the listing of the directory holds, those with
    a known ending count: [has_file_in_multiple_formats] returns [False]
    when their names without extension are pairwise distinct, and
    otherwise the list of the names that occur again, one entry per
    occurrence after the first, in scan order. *)
Theorem multiple_formats_of_known_files (dir_ : string) :
  let names := known_base_names (glob (os_path_join dir_ "*.*")) in
  (NoDup names → has_file_in_multiple_formats dir_ = PyFalse) ∧
  (¬ NoDup names →
   has_file_in_multiple_formats dir_ = PyList (later_occurrences names)).
Proof.
  cbv zeta. rewrite <- file_names_known.
  unfold has_file_in_multiple_formats. split.
  - intros Hnd. rewrite bool_decide_eq_true_2; [done|].
    by apply length_eq_size_NoDup.
  - intros Hdup. rewrite bool_decide_eq_false_2.
    + f_equal. rewrite <- later_from_nil. apply seen_before_later_from.
      intros x. split; intros Hx.
      * by apply not_elem_of_empty in Hx.
      * by apply not_elem_of_nil in Hx.
    + by rewrite length_eq_size_NoDup.
Qed.

End DirectoryScan.

(** ** The field splitter *)

Section SplitterFacts.
Import Py Spec.

(** [split] and [join] are inverse to each other, and [split] never
    returns the empty list. *)
Lemma split_nonempty (sep : ascii) (s : string) : split sep s ≠ [].
Proof.
  destruct s as [|a s]; simpl; [done|].
  destruct (Ascii.eqb a sep); [done|]. by destruct (split sep s).
Qed.

Lemma split_cons_other (sep a : ascii) (s : string) :
  Ascii.eqb a sep = false →
  split sep (String a s) = on_head (String a) (split sep s).
Proof.
  intros Ha. simpl. rewrite Ha.
  pose proof (split_nonempty sep s). by destruct (split sep s).
Qed.

Lemma split_cons_sep (sep : ascii) (s : string) :
  split sep (String sep s) = "" :: split sep s.
Proof. simpl. by rewrite Ascii.eqb_refl. Qed.

Lemma split_singleton_empty (sep : ascii) (s : string) :
  split sep s = [""] → s = "".
Proof.
  destruct s as [|a s]; [done|]. simpl.
  destruct (Ascii.eqb a sep).
  - intros [= Hs]. by destruct (split_nonempty sep s).
  - by destruct (split sep s).
Qed.

Lemma join_split (sep : ascii) (s : string) :
  join (String sep "") (split sep s) = s.
Proof.
  induction s as [|a s IH]; [done|]. simpl.
  destruct (Ascii.eqb a sep) eqn:Ha.
  - apply Ascii.eqb_eq in Ha as ->.
    pose proof (split_nonempty sep s).
    destruct (split sep s) as [|t ts] eqn:Hs; [done|].
    cbn [join]. cbn [join] in IH. by rewrite IH.
  - pose proof (split_nonempty sep s).
    destruct (split sep s) as [|t ts] eqn:Hs; [done|].
    destruct ts as [|t' ts]; simpl in *; by rewrite <- IH.
Qed.

(** [lstrip] and [rstrip] are idempotent and commute. *)
Lemma rstrip_empty_iff (s : string) : rstrip s = "" ↔ lstrip s = "".
Proof.
  induction s as [|a s IH]; [done|]. simpl.
  destruct (rstrip s) eqn:Hr, (isspace a); simpl.
  - by rewrite <- IH.
  - done.
  - split; [done|]. intros Hl. by apply IH in Hl.
  - done.
Qed.

Lemma lstrip_idem (s : string) : lstrip (lstrip s) = lstrip s.
Proof.
  induction s as [|a s IH]; [done|]. simpl.
  destruct (isspace a) eqn:Ha; [done|]. simpl. by rewrite Ha.
Qed.

Lemma rstrip_cons (a : ascii) (s : string) :
  rstrip (String a s) =
    match rstrip s with
    | "" => if isspace a then "" else String a ""
    | r => String a r
    end.
Proof. reflexivity. Qed.

Lemma rstrip_idem (s : string) : rstrip (rstrip s) = rstrip s.
Proof.
  induction s as [|a s IH]; [done|]. rewrite rstrip_cons.
  destruct (rstrip s) as [|b r] eqn:Hr.
  - destruct (isspace a) eqn:Ha; [done|]. simpl. by rewrite Ha.
  - by rewrite rstrip_cons, IH.
Qed.

Lemma lstrip_rstrip (s : string) : lstrip (rstrip s) = rstrip (lstrip s).
Proof.
  induction s as [|a s IH]; [done|]. rewrite rstrip_cons. cbn [lstrip].
  destruct (isspace a) eqn:Ha.
  - rewrite <- IH. destruct (rstrip s) as [|b r] eqn:Hr; [done|].
    cbn [lstrip]. by rewrite Ha.
  - rewrite rstrip_cons. destruct (rstrip s); cbn [lstrip]; by rewrite Ha.
Qed.

Lemma strip_idem (s : string) : strip (strip s) = strip s.
Proof.
  unfold strip. by rewrite lstrip_rstrip, rstrip_idem, lstrip_idem.
Qed.

Lemma strip_lstrip (s : string) : strip (lstrip s) = strip s.
Proof. unfold strip. by rewrite lstrip_idem. Qed.

Lemma strip_rstrip (s : string) : strip (rstrip s) = strip s.
Proof. unfold strip. by rewrite lstrip_rstrip, rstrip_idem. Qed.

Lemma map_strip_on_head (l : list string) :
  map strip (on_head lstrip l) = map strip l.
Proof. destruct l; simpl; [done|]. by rewrite strip_lstrip. Qed.

Lemma map_strip_on_last (l : list string) :
  map strip (on_last rstrip l) = map strip l.
Proof.
  induction l as [|t [|t' ts] IH]; [done| |].
  - simpl. by rewrite strip_rstrip.
  - change (on_last rstrip (t :: t' :: ts)) with (t :: on_last rstrip (t' :: ts)).
    rewrite !map_cons, IH. done.
Qed.

(** Stripping the text on the left strips its first token. *)
Lemma split_lstrip (sep : ascii) (s : string) :
  isspace sep = false →
  split sep (lstrip s) = on_head lstrip (split sep s).
Proof.
  intros Hsep. induction s as [|a s IH]; [done|]. cbn [lstrip].
  destruct (Ascii.eqb a sep) eqn:Ha.
  - apply Ascii.eqb_eq in Ha as ->. rewrite Hsep. simpl.
    by rewrite Ascii.eqb_refl.
  - rewrite (split_cons_other sep a s Ha).
    pose proof (split_nonempty sep s) as Hne.
    destruct (isspace a) eqn:Hsp.
    + rewrite IH. destruct (split sep s); [done|]. simpl. by rewrite Hsp.
    + rewrite (split_cons_other sep a s Ha).
      destruct (split sep s); [done|]. simpl. by rewrite Hsp.
Qed.

(** Stripping the text on the right strips its last token. *)
Lemma split_rstrip (sep : ascii) (s : string) :
  isspace sep = false →
  split sep (rstrip s) = on_last rstrip (split sep s).
Proof.
  intros Hsep. induction s as [|a s IH]; [done|]. rewrite rstrip_cons.
  pose proof (split_nonempty sep s) as Hne.
  destruct (Ascii.eqb a sep) eqn:Ha.
  - apply Ascii.eqb_eq in Ha as ->. rewrite Hsep.
    assert (split sep (String sep (rstrip s))
            = on_last rstrip (split sep (String sep s))) as Hgoal.
    { rewrite !split_cons_sep, IH. by destruct (split sep s). }
    by destruct (rstrip s).
  - rewrite (split_cons_other sep a s Ha).
    destruct (rstrip s) as [|b r] eqn:Hr.
    + simpl in IH.
      destruct (split sep s) as [|t [|t' ts]] eqn:Hs; [done| |].
      * simpl in IH. injection IH as Ht. cbn [on_head on_last].
        rewrite rstrip_cons, <- Ht.
        destruct (isspace a); [done|]. simpl. by rewrite Ha.
      * exfalso. change (on_last rstrip (t :: t' :: ts))
          with (t :: on_last rstrip (t' :: ts)) in IH.
        injection IH as _ Hrest. by destruct ts.
    + rewrite (split_cons_other sep a _ Ha), IH.
      destruct (split sep s) as [|t [|t' ts]] eqn:Hs; [done| |].
      * cbn [on_head on_last]. rewrite rstrip_cons.
        destruct (rstrip t) eqn:Ht; [|done].
        cbn [on_last] in IH. rewrite Ht in IH.
        by apply split_singleton_empty in IH.
      * done.
Qed.

Lemma map_strip_split_strip (s : string) :
  map strip (split "," (strip s)) = map strip (split "," s).
Proof.
  unfold strip.
  rewrite split_rstrip, map_strip_on_last by done.
  by rewrite split_lstrip, map_strip_on_head by done.
Qed.

(** Both variants split on the commas of the text as it is: stripping the
    whole text first changes nothing once every token is stripped. *)
Lemma convert_split_tokens (s : string) :
  Convert.split_and_tidy (VStr s) = inr (Some (map strip (split "," s))).
Proof. unfold Convert.split_and_tidy, ret. by rewrite map_strip_split_strip. Qed.

Lemma utils_split_tokens (s : string) :
  Utils.split_and_tidy (VStr s)
  = inr (filter (λ x, x ≠ "") (map strip (split "," s))).
Proof.
  unfold Utils.split_and_tidy. destruct s as [|a s]; [done|].
  cbn [eq_str is_None]. rewrite bool_decide_eq_false_2 by done.
  cbn [orb]. unfold ret. by rewrite map_strip_split_strip.
Qed.

(** The tokens of the [utils] variant are not empty and carry no
    surrounding whitespace. *)
Lemma utils_split_trimmed (s : string) (tokens : list string) :
  Utils.split_and_tidy (VStr s) = inr tokens →
  Forall (λ t, t ≠ "" ∧ strip t = t) tokens.
Proof.
  rewrite utils_split_tokens. intros [= <-].
  apply Forall_forall. intros t [Hne Hin]%list_elem_of_filter.
  split; [done|].
  apply list_elem_of_fmap in Hin as (t' & -> & _). apply strip_idem.
Qed.

(** The example of the specification, in both variants. *)
Example split_example_convert :
  Convert.split_and_tidy (VStr " a, b ,c") = inr (Some ["a"; "b"; "c"]).
Proof. reflexivity. Qed.

Example split_example_utils :
  Utils.split_and_tidy (VStr " a, b ,c") = inr ["a"; "b"; "c"].
Proof. reflexivity. Qed.

(** An absent value: the sentinel in [convert], the empty list in [utils]. *)
Lemma split_absent :
  Convert.split_and_tidy VNone = inr None ∧ Utils.split_and_tidy VNone = inr [].
Proof. done. Qed.

(** C4, evaluated. On "a,,b" the variant of [convert] keeps the empty
    token between the two commas, the variant of [utils] drops it. *)
Theorem convert_splitter_keeps_empty_tokens :
  Convert.split_and_tidy (VStr "a,,b") = inr (Some ["a"; ""; "b"]) ∧
  Utils.split_and_tidy (VStr "a,,b") = inr ["a"; "b"].
Proof. split; reflexivity. Qed.

End SplitterFacts.

(** ** The theorems on concrete inputs *)

Section Instances.
Import Py Openpyxl Pathlib World Spec.

Lemma sheet_layout : fixed_layout Demo.sheet 3 7.
Proof.
  constructor.
  - unfold max_row, Demo.sheet. simpl. lia.
  - reflexivity.
  - reflexivity.
  - intros r H3 H7.
    do 10 (destruct r as [|r]; [first [reflexivity | congruence]|]).
    reflexivity.
Defined.

Lemma extraction_in_row_order_witness :
  Convert.extract_concepts_and_collections (MD := Demo.models) Demo.sheet
  = inr (Demo.sheet_concepts, Demo.sheet_collections).
Proof.
  apply (extraction_in_row_order (MD := Demo.models) Demo.sheet 3 7
           Demo.sheet_concepts Demo.sheet_collections sheet_layout).
  split.
  - repeat constructor; unfold concept_at; do 3 eexists; repeat split; reflexivity.
  - repeat constructor; unfold collection_at; eexists; split; reflexivity.
Defined.

Lemma blank_row_is_skipped_witness :
  cell_value Demo.sheet A 5 = VNone ∧
  Convert.loop (MD := Demo.models) Demo.sheet ([3; 4] ++ 5 :: [6]) Convert.initial
  = Convert.loop (MD := Demo.models) Demo.sheet ([3; 4] ++ [6]) Convert.initial.
Proof.
  split; [reflexivity|].
  apply (blank_row_is_skipped (MD := Demo.models) Demo.sheet 5); reflexivity.
Defined.

(** C2, refuted as worded: on a sheet in which the sentinels come back the
    loop enters the collections state twice, and the row after the first
    transition, laid out as a concept with its columns A to H filled, is
    not ignored: it adds a collection. *)
Lemma twice_refutes_single_transition :
  ¬ transitions_once (MD := Demo.models) Demo.twice ∧
  ¬ ignored_after_transition (MD := Demo.models) Demo.twice.
Proof.
  assert (H2 : transition_at (MD := Demo.models) Demo.twice 2).
  { do 2 eexists. repeat split; reflexivity. }
  assert (H6 : transition_at (MD := Demo.models) Demo.twice 6).
  { do 2 eexists. repeat split; reflexivity. }
  split.
  - intros (row & _ & Huniq).
    pose proof (Huniq 2 H2) as E2. pose proof (Huniq 6 H6) as E6. congruence.
  - intros Hign.
    edestruct (Hign 2 3) as [_ Hcol];
      [exact H2|unfold max_row, Demo.twice; simpl; lia| |reflexivity..|].
    + split; [|left; discriminate].
      eexists. do 3 eexists. repeat split; reflexivity.
    + discriminate Hcol.
Qed.

(** On the sheet of the examples, which follows the fixed layout, no row
    after the collections header is laid out as a concept, and the second
    half of the claim holds. *)
Example sheet_ignores_concept_rows :
  ignored_after_transition (MD := Demo.models) Demo.sheet.
Proof.
  intros i row st st' _ _ [_ Hcols] _ _. exfalso.
  do 10 (destruct row as [|row]; [by destruct Hcols as [H|[H|H]]; apply H|]).
  by destruct Hcols as [H|[H|H]]; apply H.
Qed.

Lemma collections_only_after_sentinel_witness :
  ∃ st_end st st',
    Convert.loop (MD := Demo.models) Demo.twice
      ([1; 2; 3] ++ 4 :: [5]) Convert.initial = inr st_end ∧
    Convert.loop Demo.twice [1; 2; 3] Convert.initial = inr st ∧
    Convert.step Demo.twice st 4 = inr st' ∧
    Convert.loop Demo.twice [5] st' = inr st_end ∧
    (in_collections st = false → in_collections st' = true →
     cell_value Demo.twice A 4 = VStr "Collection URI") ∧
    (cell_value Demo.twice A 4 = VStr "Collection URI" →
     in_collections st' = true ∧
     Convert.concepts st' = Convert.concepts st ∧
     Convert.collections st' = Convert.collections st) ∧
    (cell_value Demo.twice A 4 = VStr "Concept URI" →
     Convert.process_concept st' = true ∧ in_collections st' = false ∧
     Convert.concepts st' = Convert.concepts st ∧
     Convert.collections st' = Convert.collections st) ∧
    (Convert.process_concept st' = true →
     (∀ r, r ∈ [5] → is_sentinel (cell_value Demo.twice A r) = false) →
     ∃ cs, Forall2 (concept_at Demo.twice) (filter (nonblank Demo.twice) [5]) cs ∧
           Convert.concepts st_end = Convert.concepts st' ++ cs ∧
           Convert.collections st_end = Convert.collections st') ∧
    (in_collections st' = true →
     (∀ r, r ∈ [5] → cell_value Demo.twice A r ≠ VStr "Concept URI") →
     Convert.concepts st_end = Convert.concepts st' ∧ in_collections st_end = true) ∧
    (in_collections st' = true →
     (∀ r, r ∈ [5] → is_sentinel (cell_value Demo.twice A r) = false) →
     ∃ ls, Forall2 (collection_at Demo.twice) (filter (nonblank Demo.twice) [5]) ls ∧
           Convert.collections st_end = Convert.collections st' ++ ls).
Proof.
  eexists.
  assert (Hrun : Convert.loop (MD := Demo.models) Demo.twice
            ([1; 2; 3] ++ 4 :: [5]) Convert.initial = inr _)
    by reflexivity.
  destruct (collections_only_after_sentinel (MD := Demo.models) Demo.twice
              [1; 2; 3] [5] 4 _ Hrun) as (st & st' & Hrest).
  exists st, st'. split; [exact Hrun|exact Hrest].
Defined.


End Instances.

Section GateInstances.
Import Py Openpyxl Pathlib World Spec.

Lemma rdf_gate_validates_against_vocpub_witness :
  "dd" ≠ "vocpub" ∧
  Convert.rdf_to_excel (MD := Demo.models) (LB := Demo.libraries)
    Demo.world Demo.ttl "dd" None
  = (Demo.world, inr Convert.ONone).
Proof.
  split; [discriminate|].
  rewrite (rdf_gate_validates_against_vocpub (MD := Demo.models)
             (LB := Demo.libraries) Demo.world Demo.ttl "dd" None).
  - reflexivity.
  - reflexivity.
  - right. left.
Defined.


(** C6, refuted as worded: on a workbook of the supported version the gate
    returns [True], not the workbook. *)
Lemma gate_returns_true_not_workbook :
  Utils.is_supported_template (Demo.workbook (VStr "0.4.3"))
  ≠ inr (Utils.OWorkbook (Demo.workbook (VStr "0.4.3"))).
Proof. discriminate. Qed.

Lemma template_version_gate_witness :
  Utils.is_supported_template [("vocabulary", Demo.sheet)]
  = inl (Voc4catError "The version of the Excel template cannot be determined.") ∧
  Utils.is_supported_template (Demo.workbook (VStr "0.4.2"))
  = inl (Voc4catError
           "Unsupported template version. Supported are 0.4.3, you supplied 0.4.2.") ∧
  Utils.is_supported_template (Demo.workbook (VStr "0.4.3")) = inr (Utils.OBool true).
Proof.
  split; [|split].
  - apply (proj1 (template_version_gate [("vocabulary", Demo.sheet)])).
    intros Hin. apply list_elem_of_singleton in Hin. discriminate Hin.
  - apply (proj1 (proj2 (template_version_gate (Demo.workbook (VStr "0.4.2")))
                    (Demo.introduction (VStr "0.4.2")) eq_refl)).
    intros Hin. apply list_elem_of_singleton in Hin. discriminate Hin.
  - apply (proj2 (proj2 (template_version_gate (Demo.workbook (VStr "0.4.3")))
                    (Demo.introduction (VStr "0.4.3")) eq_refl)).
    left.
Defined.

Lemma multiple_formats_of_known_files_witness :
  ¬ NoDup (known_base_names (LB := Demo.libraries) Demo.drafts) ∧
  Utils.has_file_in_multiple_formats (LB := Demo.libraries) "drafts"
  = Utils.PyList ["drafts/c"].
Proof.
  assert (Hdup : ¬ NoDup (known_base_names (LB := Demo.libraries) Demo.drafts)).
  { intros Hnd. do 2 apply NoDup_cons in Hnd as [_ Hnd].
    apply NoDup_cons in Hnd as [Hnot _]. apply Hnot. left. }
  split; [exact Hdup|].
  exact (proj2 (multiple_formats_of_known_files (LB := Demo.libraries) "drafts") Hdup).
Defined.

End GateInstances.

(** ** Further properties of the row extractor *)

Section ExtractorEdges.
Context {MD : Models}.
Import Py Openpyxl Convert Spec.

(** X1. A sheet whose first column holds neither "Concept URI" nor
    "Collection URI" yields no entity and no error, whatever its rows
    hold. *)
Theorem extract_without_sentinel (s : Worksheet) :
  (∀ row, 1 ≤ row ≤ max_row s → is_sentinel (cell_value s A row) = false) →
  extract_concepts_and_collections s = inr ([], []).
Proof.
  intros Hrows. unfold extract_concepts_and_collections.
  rewrite loop_scanning; [done..|].
  intros r Hr%elem_of_seq. apply Hrows. lia.
Qed.

Lemma split_and_tidy_cases (v : Value) :
  (not_text v ∧ split_and_tidy v = inl no_strip) ∨
  (¬ not_text v ∧ ∃ l, split_and_tidy v = inr l).
Proof.
  destruct v; simpl.
  - right. split; [tauto|]. by eexists.
  - right. split; [tauto|]. by eexists.
  - by left.
Qed.

(** A concept row with a list cell that is not a text raises the
    [AttributeError] of [strip], before the concept is constructed. *)
Lemma make_concept_not_text (s : Worksheet) (row : nat) :
  not_text (cell_value s C row) ∨ not_text (cell_value s E row)
  ∨ not_text (cell_value s F row) →
  make_concept s row = inl no_strip.
Proof.
  intros Hnt. unfold make_concept.
  destruct (split_and_tidy_cases (cell_value s C row)) as [[_ ->]|[HC [al ->]]];
    [done|]. simpl.
  destruct (split_and_tidy_cases (cell_value s E row)) as [[_ ->]|[HE [ch ->]]];
    [done|]. simpl.
  destruct (split_and_tidy_cases (cell_value s F row)) as [[_ ->]|[HF [oi ->]]];
    [done|]. tauto.
Qed.

Lemma make_collection_not_text (s : Worksheet) (row : nat) :
  not_text (cell_value s D row) → make_collection s row = inl no_strip.
Proof.
  intros Hnt. unfold make_collection.
  by destruct (split_and_tidy_cases (cell_value s D row)) as [[_ ->]|[HD _]].
Qed.

(** X2. The first row at which the run stops is a data row with a list
    cell (C, E or F in the concepts section, D in the collections section)
    that holds a value other than a text: the extraction raises the
    [AttributeError] of [strip] as it is, not a [ConversionError], whatever
    the validation of the row would say. *)
Theorem non_text_list_cell_raises (s : Worksheet) (before after : list nat)
    (row : nat) (st : State) :
  first_column_rows s = before ++ row :: after →
  loop s before initial = inr st →
  data_row s row →
  (process_concept st = true ∧
   (not_text (cell_value s C row) ∨ not_text (cell_value s E row)
    ∨ not_text (cell_value s F row)))
  ∨ (in_collections st = true ∧ not_text (cell_value s D row)) →
  extract_concepts_and_collections s
  = inl (AttributeError "object has no attribute 'strip'").
Proof.
  intros Hrows Hbefore [Hv Hsent] Hcell.
  unfold extract_concepts_and_collections.
  rewrite Hrows, loop_app, Hbefore. simpl.
  destruct Hcell as [[Hpc Hnt]|[[Hpc%negb_true_iff Hpl]%andb_true_iff Hnt]].
  - rewrite step_concept_row by done.
    by rewrite (make_concept_not_text s row Hnt).
  - rewrite step_collection_row by done.
    by rewrite (make_collection_not_text s row Hnt).
Qed.

(** A row adds at most one entity, and only a data row adds one. *)
Lemma step_at_most_one (s : Worksheet) (st st' : State) (row : nat) :
  step s st row = inr st' →
  length (concepts st') + length (collections st')
  ≤ length (concepts st) + length (collections st) + 1.
Proof.
  unfold step. intros Hstep.
  destruct (eq_str (cell_value s A row) "Concept URI").
  { injection Hstep as <-. simpl. lia. }
  destruct (eq_str (cell_value s A row) "Collection URI").
  { injection Hstep as <-. simpl. lia. }
  destruct st as [cs ls [] []]; simpl in *;
    destruct (is_None (cell_value s A row));
    first [ injection Hstep as <-; simpl; lia
          | apply bind_inr in Hstep as (c & _ & [= <-]); simpl;
            rewrite length_app; simpl; lia ].
Qed.

Lemma step_no_data_row (s : Worksheet) (st st' : State) (row : nat) :
  ¬ data_row s row →
  step s st row = inr st' →
  concepts st' = concepts st ∧ collections st' = collections st.
Proof.
  unfold data_row, nonblank. intros Hnd Hstep.
  destruct (decide (cell_value s A row = VNone)) as [Hv|Hv].
  { rewrite step_blank in Hstep by done. by injection Hstep as <-. }
  destruct (is_sentinel (cell_value s A row)) eqn:Hsent; [|tauto].
  apply orb_true_iff in Hsent as [Hc%eq_str_true|Hl%eq_str_true].
  - rewrite step_concept_sentinel in Hstep by done. by injection Hstep as <-.
  - rewrite step_collection_sentinel in Hstep by done. by injection Hstep as <-.
Qed.

Lemma step_entities (s : Worksheet) (st st' : State) (row : nat) :
  step s st row = inr st' →
  length (concepts st') + length (collections st')
  ≤ length (concepts st) + length (collections st)
    + (if decide (data_row s row) then 1 else 0).
Proof.
  intros Hstep. destruct (decide (data_row s row)) as [Hd|Hd].
  - by apply (step_at_most_one s st st' row).
  - apply (step_no_data_row s st st' row Hd) in Hstep as [-> ->]. lia.
Qed.

Lemma loop_entities (s : Worksheet) (rows : list nat) (st st' : State) :
  loop s rows st = inr st' →
  length (concepts st') + length (collections st')
  ≤ length (concepts st) + length (collections st)
    + length (filter (data_row s) rows).
Proof.
  revert st. induction rows as [|r rows IH]; intros st Hloop.
  - injection Hloop as <-. simpl. lia.
  - simpl in Hloop. apply bind_inr in Hloop as (st1 & Hstep & Hloop).
    apply step_entities in Hstep. apply IH in Hloop.
    rewrite filter_cons. destruct (decide (data_row s r)); simpl; lia.
Qed.

(** X3. The extractor returns at most one entity per data row: the
    concepts and the collections together are no more than the rows whose
    first-column cell is neither empty nor a sentinel. *)
Theorem entities_bounded_by_data_rows (s : Worksheet)
    (cs : list Concept) (ls : list Collection) :
  extract_concepts_and_collections s = inr (cs, ls) →
  length cs + length ls ≤ length (filter (data_row s) (first_column_rows s)).
Proof.
  unfold extract_concepts_and_collections.
  intros (st & Hloop & [= <- <-])%bind_inr.
  apply loop_entities in Hloop. simpl in Hloop. lia.
Qed.

End ExtractorEdges.

(** ** Further properties of the field splitter *)

Section SplitterEdges.
Import Py Spec.

Lemma length_split (sep : ascii) (s : string) :
  length (split sep s) = S (count sep s).
Proof.
  induction s as [|a s IH]; [done|]. simpl.
  destruct (Ascii.eqb a sep); simpl; [by rewrite IH|].
  pose proof (split_nonempty sep s). by destruct (split sep s).
Qed.

Lemma count_split (sep : ascii) (s : string) :
  Forall (λ t, count sep t = 0) (split sep s).
Proof.
  induction s as [|a s IH]; simpl; [by repeat constructor|].
  destruct (Ascii.eqb a sep) eqn:Ha; [by constructor|].
  destruct (split sep s) as [|t ts]; [constructor; [simpl; by rewrite Ha|done]|].
  apply Forall_cons in IH as [Ht Hts].
  constructor; [|done]. simpl. by rewrite Ha.
Qed.

Lemma count_lstrip (c : ascii) (s : string) :
  count c s = 0 → count c (lstrip s) = 0.
Proof.
  induction s as [|a s IH]; [done|]. simpl.
  destruct (isspace a); [|done]. intros Hc. apply IH. lia.
Qed.

Lemma count_rstrip (c : ascii) (s : string) :
  count c s = 0 → count c (rstrip s) = 0.
Proof.
  induction s as [|a s IH]; [done|]. rewrite rstrip_cons. simpl.
  intros Hc. assert (count c (rstrip s) = 0) as Hr by (apply IH; lia).
  destruct (rstrip s) as [|b r]; [destruct (isspace a)|]; simpl in *; lia.
Qed.

Lemma count_strip (c : ascii) (s : string) :
  count c s = 0 → count c (strip s) = 0.
Proof. intros Hc. by apply count_rstrip, count_lstrip. Qed.

(** Splitting a text that starts with a token free of the separator. *)
Lemma split_token_sep (sep : ascii) (t rest : string) :
  count sep t = 0 →
  split sep (t +:+ String sep rest) = t :: split sep rest.
Proof.
  induction t as [|a t IH]; simpl.
  - intros _. by rewrite Ascii.eqb_refl.
  - destruct (Ascii.eqb a sep) eqn:Ha; [done|]. simpl. intros Hc.
    change (String.append t (String sep rest)) with (t +:+ String sep rest).
    by rewrite IH.
Qed.

Lemma split_token (sep : ascii) (t : string) :
  count sep t = 0 → split sep t = [t].
Proof.
  induction t as [|a t IH]; simpl; [done|].
  destruct (Ascii.eqb a sep) eqn:Ha; [done|]. simpl. intros Hc.
  by rewrite IH.
Qed.

(** [sep.join(tokens).split(sep)] gives the tokens back when none holds
    the separator and there is one at least. *)
Lemma split_join (sep : ascii) (tokens : list string) :
  tokens ≠ [] →
  Forall (λ t, count sep t = 0) tokens →
  split sep (join (String sep "") tokens) = tokens.
Proof.
  induction tokens as [|t [|t' ts] IH]; [done| |]; intros _ Hts.
  - apply Forall_cons in Hts as [Ht _]. by apply split_token.
  - apply Forall_cons in Hts as [Ht Hts].
    change (join (String sep "") (t :: t' :: ts))
      with (t +:+ String sep "" +:+ join (String sep "") (t' :: ts)).
    change (String sep "" +:+ join (String sep "") (t' :: ts))
      with (String sep (join (String sep "") (t' :: ts))).
    rewrite split_token_sep by done. by rewrite IH.
Qed.

(** X4. On a text the variant of [convert] returns one token per comma
    and one more: never the empty list, not even for the empty text. *)
Theorem convert_split_token_count (s : string) :
  ∃ tokens,
    Convert.split_and_tidy (VStr s) = inr (Some tokens) ∧
    length tokens = S (count "," s).
Proof.
  exists (map strip (split "," s)). split; [apply convert_split_tokens|].
  by rewrite length_map, length_split.
Qed.

(** X5. Every token the variant of [utils] returns is not empty, has no
    whitespace at either end and holds no comma. *)
Theorem utils_split_tokens_clean (v : Value) (tokens : list string) :
  Utils.split_and_tidy v = inr tokens →
  Forall (λ t, t ≠ "" ∧ strip t = t ∧ count "," t = 0) tokens.
Proof.
  destruct v as [|s|r]; [by intros [= <-]| |done].
  rewrite utils_split_tokens. intros [= <-].
  apply Forall_forall. intros t [Hne Hin]%list_elem_of_filter.
  split; [done|].
  apply list_elem_of_fmap in Hin as (t' & -> & Hin).
  split; [apply strip_idem|].
  apply count_strip.
  pose proof (count_split "," s) as Hall.
  by apply (proj1 (Forall_forall _ _) Hall).
Qed.

(** X6. Joining the tokens of the variant of [utils] with commas and
    splitting again gives the same tokens. *)
Theorem utils_split_join_round_trip (v : Value) (tokens : list string) :
  Utils.split_and_tidy v = inr tokens →
  Utils.split_and_tidy (VStr (join "," tokens)) = inr tokens.
Proof.
  intros Hsplit.
  pose proof (utils_split_tokens_clean v tokens Hsplit) as Hclean.
  destruct tokens as [|t ts]; [done|].
  rewrite utils_split_tokens, split_join; [|done|].
  - f_equal. clear Hsplit.
    induction Hclean as [|t' ts' (Hne & Hstrip & _) _ IH]; [done|].
    rewrite map_cons, filter_cons_True by by rewrite Hstrip.
    by rewrite Hstrip, IH.
  - eapply Forall_impl; [exact Hclean|]. by intros t' (_ & _ & Hc).
Qed.

(** X7. The two variants agree up to the empty tokens: on every value the
    variant of [utils] returns what the variant of [convert] returns
    without its empty tokens, the empty list for [None], and raises when
    it raises. *)
Theorem utils_split_is_filtered_convert_split (v : Value) :
  match Convert.split_and_tidy v with
  | inr (Some tokens) => Utils.split_and_tidy v = inr (filter (λ t, t ≠ "") tokens)
  | inr None => Utils.split_and_tidy v = inr []
  | inl e => Utils.split_and_tidy v = inl e
  end.
Proof.
  destruct v as [|s|r]; [done| |done].
  rewrite convert_split_tokens. apply utils_split_tokens.
Qed.

End SplitterEdges.

(** ** Further properties of the directory scan and of the version gate *)

Section ScanEdges.
Context {LB : Libraries}.
Import Py Openpyxl Utils Spec.

Lemma occurrences_cons (x y : string) (l : list string) :
  occurrences x (y :: l) = (if decide (y = x) then 1 else 0) + occurrences x l.
Proof.
  unfold occurrences. rewrite filter_cons. by destruct (decide (y = x)).
Qed.

Lemma occurrences_pos (x : string) (l : list string) :
  0 < occurrences x l ↔ x ∈ l.
Proof.
  induction l as [|y l IH].
  - split; [by intros ?%Nat.lt_irrefl|by intros ?%not_elem_of_nil].
  - rewrite occurrences_cons, elem_of_cons.
    destruct (decide (y = x)) as [->|Hne].
    + split; [by left|]. lia.
    + simpl. rewrite IH. split; [by right|]. by intros [->|].
Qed.

(** The entries kept by the comprehension: the names seen at the start
    that occur, and the names that occur twice. *)
Lemma elem_of_seen_before (x : string) (names : list string) (seen : gset string) :
  x ∈ seen_before seen names ↔
  (x ∈ seen ∧ x ∈ names) ∨ 1 < occurrences x names.
Proof.
  revert seen. induction names as [|y names IH]; intros seen.
  - simpl. split; [by intros ?%not_elem_of_nil|].
    intros [[_ ?%not_elem_of_nil]|Hocc]; [done|]. unfold occurrences in Hocc.
    simpl in Hocc. lia.
  - simpl. rewrite occurrences_cons. pose proof (occurrences_pos x names) as Hpos.
    case_bool_decide as Hy.
    + rewrite !elem_of_cons, IH.
      destruct (decide (y = x)) as [->|Hne].
      * split; [intros _; left; split; [done|by left]|by left].
      * simpl. split.
        -- intros [->|[[Hs Hn]|Hocc]]; [done|left; split; [done|by right]|by right].
        -- intros [[Hs [->|Hn]]|Hocc]; [done|right; left; done|right; by right].
    + rewrite IH, elem_of_union, elem_of_singleton, elem_of_cons.
      destruct (decide (y = x)) as [->|Hne].
      * split.
        -- intros [[_ Hn]|Hocc]; right; [apply Hpos in Hn|]; lia.
        -- intros [[Hs _]|Hocc]; [done|]. left. split; [by left|].
           apply Hpos. lia.
      * simpl. split.
        -- intros [[[->|Hs] Hn]|Hocc]; [done|left; split; [done|by right]|by right].
        -- intros [[Hs [->|Hn]]|Hocc]; [done|left; split; [by right|done]|by right].
Qed.

Lemma seen_before_length (names : list string) (seen : gset string) :
  length (seen_before seen names) + size (seen ∪ list_to_set names)
  = length names + size seen.
Proof.
  revert seen. induction names as [|y names IH]; intros seen.
  - by rewrite list_to_set_nil, union_empty_r_L.
  - rewrite list_to_set_cons. cbn [seen_before]. case_bool_decide as Hy.
    + specialize (IH seen).
      assert (seen ∪ ({[y]} ∪ list_to_set names)
              = seen ∪ (list_to_set names : gset string)) as ->.
      { apply set_eq. intros z.
        rewrite !elem_of_union, elem_of_singleton. split; [|tauto].
        intros [?|[->|?]]; tauto. }
      cbn [length]. lia.
    + specialize (IH ({[y]} ∪ seen)).
      assert (size ({[y]} ∪ seen) = S (size seen)) as Hsz.
      { rewrite size_union, size_singleton; [done|].
        intros z ->%elem_of_singleton. done. }
      assert (seen ∪ ({[y]} ∪ list_to_set names)
              = {[y]} ∪ seen ∪ (list_to_set names : gset string)) as ->.
      { apply set_eq. intros z. rewrite !elem_of_union. tauto. }
      cbn [length]. lia.
Qed.

(** X8. When [has_file_in_multiple_formats] returns a list, the list is
    not empty, and a name is in it exactly when it occurs more than once
    among the names without extension. *)
Theorem multiple_formats_list (dir_ : string) (l : list string) :
  has_file_in_multiple_formats dir_ = PyList l →
  l ≠ [] ∧ ∀ x, x ∈ l ↔ 1 < occurrences x (file_names dir_).
Proof.
  unfold has_file_in_multiple_formats. case_bool_decide as Hlen; [done|].
  intros [= <-].
  assert (Hmem : ∀ x, x ∈ seen_before ∅ (file_names dir_)
                      ↔ 1 < occurrences x (file_names dir_)).
  { intros x. rewrite elem_of_seen_before. split; [|by right].
    intros [[Hs _]|Hocc]; [|done]. by apply not_elem_of_empty in Hs. }
  split; [|done].
  intros Hnil.
  pose proof (seen_before_length (file_names dir_) ∅) as Hsz.
  rewrite Hnil, union_empty_l_L, size_empty in Hsz. simpl in Hsz. lia.
Qed.

(** X9. The list that [has_file_in_multiple_formats] returns has one entry
    per file beyond the first of each name: its length is the number of
    the files of the listing that have a known ending, less the number of
    their distinct names without extension. *)
Theorem multiple_formats_length (dir_ : string) (l : list string) :
  has_file_in_multiple_formats dir_ = PyList l →
  let listing := glob (os_path_join dir_ "*.*") in
  length l + size (list_to_set (known_base_names listing) : gset string)
  = length (filter has_known_ending listing).
Proof.
  cbv zeta. rewrite <- file_names_known.
  unfold has_file_in_multiple_formats. case_bool_decide as Hlen; [done|].
  intros [= <-].
  pose proof (seen_before_length (file_names dir_) ∅) as Hsz.
  rewrite union_empty_l_L, size_empty in Hsz. rewrite Hsz.
  rewrite file_names_known. unfold known_base_names.
  rewrite !length_map. lia.
Qed.

End ScanEdges.

Section GateEdges.
Import Py Openpyxl Utils Spec.

(** X10. [is_supported_template] never answers [False]: it returns [True]
    or raises a [Voc4catError], also when the sheet is missing. *)
Theorem is_supported_template_outcomes (wb : Workbook) :
  is_supported_template wb = inr (OBool true) ∨
  ∃ msg, is_supported_template wb = inl (Voc4catError msg).
Proof.
  unfold is_supported_template.
  destruct (get_template_version wb) as [e|v] eqn:Hv; simpl.
  - apply get_template_version_exn in Hv as ->. right. by eexists.
  - destruct (not_in v KNOWN_TEMPLATE_VERSIONS); [right; by eexists|by left].
Qed.

End GateEdges.

(** ** The loaders of utils.py *)

Section LoaderFacts.
Context {LB : Libraries}.
Import Py Openpyxl Pathlib World Utils Spec.

Lemma string_app_cons (a : ascii) (s1 s2 : string) :
  String a s1 +:+ s2 = String a (s1 +:+ s2).
Proof. reflexivity. Qed.

Lemma length_string_app (s1 s2 : string) :
  String.length (s1 +:+ s2) = String.length s1 + String.length s2.
Proof.
  induction s1 as [|a s1 IH]; [done|].
  rewrite string_app_cons. simpl. by rewrite IH.
Qed.

Lemma substring_all (s : string) : substring 0 (String.length s) s = s.
Proof. induction s as [|a s IH]; simpl; [done|]. by rewrite IH. Qed.

Lemma substring_string_app (s1 s2 : string) :
  substring (String.length s1) (String.length s2) (s1 +:+ s2) = s2.
Proof.
  induction s1 as [|a s1 IH]; [apply substring_all|].
  rewrite string_app_cons. simpl. apply IH.
Qed.

Lemma endswith_string_app (s1 s2 : string) : endswith (s1 +:+ s2) s2 = true.
Proof.
  unfold endswith. rewrite length_string_app.
  rewrite bool_decide_eq_true_2 by lia. simpl.
  replace (String.length s1 + String.length s2 - String.length s2)
    with (String.length s1) by lia.
  rewrite substring_string_app. by apply bool_decide_eq_true_2.
Qed.

Lemma lower_string_app (s1 s2 : string) :
  lower (s1 +:+ s2) = lower s1 +:+ lower s2.
Proof.
  induction s1 as [|a s1 IH]; [done|].
  rewrite string_app_cons. simpl. by rewrite IH.
Qed.

Lemma length_lower (s : string) : String.length (lower s) = String.length s.
Proof. induction s as [|a s IH]; simpl; [done|]. by rewrite IH. Qed.

(** The last occurrence of a character cuts the text in two. *)
Lemma rfind_Some (c : ascii) (s : string) (i : nat) :
  rfind c s = Some i →
  ∃ s1 s2, s = s1 +:+ String c s2 ∧ String.length s1 = i.
Proof.
  revert i. induction s as [|a s IH]; intros i; simpl; [done|].
  destruct (rfind c s) as [j|] eqn:Hr.
  - intros [= <-]. destruct (IH j eq_refl) as (s1 & s2 & -> & <-).
    by exists (String a s1), s2.
  - destruct (Ascii.eqb a c) eqn:Ha; [|done].
    intros [= <-]. apply Ascii.eqb_eq in Ha as ->. by exists "", s.
Qed.

(** A suffix that is not empty is the end of the name, after a stem that
    is not empty. *)
Lemma suffix_spec (p : Path) :
  suffix p ≠ "" →
  ∃ stem, stem ≠ "" ∧ name p = stem +:+ suffix p.
Proof.
  unfold suffix. cbv zeta.
  destruct (rfind "." (name p)) as [i|] eqn:Hr; [|done].
  destruct (_ && _) eqn:Hi; [|done]. intros _.
  apply andb_true_iff in Hi as [Hpos%Nat.ltb_lt _].
  apply rfind_Some in Hr as (s1 & s2 & Hname & <-).
  exists s1. split; [by destruct s1; simpl in Hpos; [lia|]|].
  rewrite Hname, length_string_app.
  replace (String.length s1 + String.length (String "." s2) - String.length s1)
    with (String.length (String "." s2)) by lia.
  by rewrite substring_string_app.
Qed.

Lemma not_xlsx_false (p : Path) :
  not_xlsx p = false →
  endswith (lower (name p)) ".xlsx" = true ∧ 6 ≤ String.length (name p).
Proof.
  unfold not_xlsx. rewrite negb_false_iff, bool_decide_eq_true.
  intros Hin%list_elem_of_singleton.
  destruct (suffix_spec p) as (stem & Hstem & Hname).
  { intros Hs. by rewrite Hs in Hin. }
  rewrite Hname, lower_string_app, Hin. split.
  - apply endswith_string_app.
  - rewrite length_string_app, <- (length_lower (suffix p)), Hin.
    destruct stem; [done|]. simpl. lia.
Qed.

Lemma string_split_at (s : string) (i : nat) :
  i ≤ String.length s →
  s = substring 0 i s +:+ substring i (String.length s - i) s.
Proof.
  revert i. induction s as [|a s IH]; intros [|i] Hi; simpl in *; try lia.
  - done.
  - by rewrite substring_all.
  - rewrite string_app_cons. f_equal. apply IH. lia.
Qed.

Lemma endswith_true (s suffix : string) :
  endswith s suffix = true → ∃ stem, s = stem +:+ suffix.
Proof.
  unfold endswith.
  intros [Hle%bool_decide_eq_true Hsub%bool_decide_eq_true]%andb_true_iff.
  exists (substring 0 (String.length s - String.length suffix) s).
  rewrite (string_split_at s (String.length s - String.length suffix)) at 1 by lia.
  f_equal.
  replace (String.length s - (String.length s - String.length suffix))
    with (String.length suffix) by lia.
  exact Hsub.
Qed.

Lemma lower_eq_app (s p q : string) :
  lower s = p +:+ q → ∃ s1 s2, s = s1 +:+ s2 ∧ lower s1 = p ∧ lower s2 = q.
Proof.
  revert s. induction p as [|a p IH]; intros s Hs.
  - by exists "", s.
  - destruct s as [|b s]; [done|]. rewrite string_app_cons in Hs.
    simpl in Hs. injection Hs as Hb Hs.
    destruct (IH s Hs) as (s1 & s2 & -> & <- & <-).
    exists (String b s1), s2. simpl. by rewrite Hb.
Qed.

(** Lowering a character gives a dot only from a dot. *)
Lemma lower_char_dot (a : ascii) :
  lower_char a = "."%char ↔ a = "."%char.
Proof.
  split; [|by intros ->].
  destruct a as [[] [] [] [] [] [] [] []]; vm_compute; congruence.
Qed.

Lemma count_lower_dot (s : string) : count "." (lower s) = count "." s.
Proof.
  induction s as [|a s IH]; [done|]. simpl. rewrite IH. f_equal.
  destruct (Ascii.eqb a ".") eqn:Ha.
  - apply Ascii.eqb_eq in Ha as ->. done.
  - destruct (Ascii.eqb (lower_char a) ".") eqn:Hl; [|done].
    apply Ascii.eqb_eq, lower_char_dot in Hl as ->. done.
Qed.

Lemma rfind_None (c : ascii) (s : string) : count c s = 0 → rfind c s = None.
Proof.
  induction s as [|a s IH]; [done|]. simpl.
  destruct (Ascii.eqb a c); [done|]. intros Hc. by rewrite IH.
Qed.

Lemma rfind_last (c : ascii) (s1 s2 : string) :
  count c s2 = 0 → rfind c (s1 +:+ String c s2) = Some (String.length s1).
Proof.
  intros Hc. induction s1 as [|a s1 IH].
  - simpl. by rewrite (rfind_None c s2 Hc), Ascii.eqb_refl.
  - rewrite string_app_cons. simpl. by rewrite IH.
Qed.

Lemma not_xlsx_true (p : Path) :
  endswith (lower (name p)) ".xlsx" = true → 6 ≤ String.length (name p) →
  not_xlsx p = false.
Proof.
  intros (stem & Hlow)%endswith_true Hlen.
  apply lower_eq_app in Hlow as (s1 & s2 & Hname & _ & Hs2).
  destruct s2 as [|d s2]; [done|]. simpl in Hs2. injection Hs2 as Hd Hs2.
  apply lower_char_dot in Hd as ->.
  assert (Hc : count "." s2 = 0) by by rewrite <- count_lower_dot, Hs2.
  assert (Hl2 : String.length s2 = 4) by by rewrite <- length_lower, Hs2.
  destruct p as [dirs nm]. simpl in Hname, Hlen. subst nm.
  rewrite length_string_app in Hlen. simpl in Hlen.
  unfold not_xlsx, suffix. cbv zeta. cbn [name].
  rewrite (rfind_last "." s1 s2 Hc), length_string_app.
  assert ((0 <? String.length s1)
          && (String.length s1
              <? String.length s1 + String.length (String "." s2) - 1) = true)
    as ->.
  { apply andb_true_iff. simpl. split; apply Nat.ltb_lt; lia. }
  replace (String.length s1 + String.length (String "." s2) - String.length s1)
    with (String.length (String "." s2)) by lia.
  rewrite substring_string_app. simpl. rewrite Hs2. done.
Qed.

(** X11. [utils.load_workbook] hands the path over to openpyxl exactly
    when its name ends in ".xlsx", up to the case of the letters, after at
    least one character; every other path is refused with a
    [Voc4catError] before anything is loaded. *)
Theorem utils_load_workbook_gate (w : World) (p : Path) :
  load_workbook w p =
    if decide (endswith (lower (name p)) ".xlsx" = true
               ∧ 6 ≤ String.length (name p))
    then openpyxl_load w (str p)
    else (w, inl (Voc4catError "Files for conversion to RDF must be xlsx files.")).
Proof.
  unfold load_workbook. destruct (not_xlsx p) eqn:Hgate.
  - rewrite decide_False; [done|]. intros [Hend Hlen].
    by rewrite (not_xlsx_true p Hend Hlen) in Hgate.
  - by rewrite decide_True by by apply not_xlsx_false.
Qed.

(** X12. A template that [load_template] returns is of a supported
    version: [is_supported_template] accepts it. The file was loaded
    twice and no file was written. *)
Theorem load_template_supported (w w' : World) (p : Path) (wb : Workbook) :
  load_template w p = (w', inr wb) →
  is_supported_template wb = inr (OBool true) ∧
  files w' = files w ∧
  loads w' = loads w ++ [str p; str p].
Proof.
  unfold load_template, load_workbook.
  destruct (not_xlsx p); [done|]. unfold openpyxl_load. simpl.
  destruct (openpyxl_load_workbook (str p) (files w !! str p)) as [e|wb1] eqn:Hload;
    simpl; [done|].
  destruct (get_template_version wb1) as [e|v] eqn:Hv; [done|].
  destruct (eq_str v LATEST_TEMPLATE) eqn:Hlatest; [|done].
  cbn [negb files loads]. intros [= <- <-].
  split; [|split; [done|by rewrite <- app_assoc]].
  apply eq_str_true in Hlatest as ->.
  unfold is_supported_template. by rewrite Hv.
Qed.

End LoaderFacts.

(** ** Further properties of the orchestrators and of the command line *)

Section OrchestratorEdges.
Context {MD : Models} {LB : Libraries}.
Import Py Openpyxl Pathlib World Convert Spec.

(** X14. Every output type other than "graph" and "string" is the file
    mode: when the mode "string" returns a text, such a call writes
    exactly that text to the destination (the given path, or the input
    path with the suffix ".ttl"), and returns the destination. *)
Theorem excel_to_rdf_file_holds_string_output (w : World) (path : Path)
    (sheet_name : option string) (output_type : string)
    (output_file_path given : option Path) (w1 : World) (text : string) :
  excel_to_rdf w path sheet_name "string" given = (w1, inr (OString text)) →
  output_type ≠ "graph" → output_type ≠ "string" →
  excel_to_rdf w path sheet_name output_type output_file_path =
    let dest := default (with_suffix path ".ttl") output_file_path in
    ({| files := <[str dest := TextFile text]> (files w);
        loads := loads w ++ [str path] |},
     inr (OPath dest)).
Proof.
  unfold excel_to_rdf, load_workbook.
  destruct (negb _); [done|]. simpl.
  destruct (_ <~ openpyxl_load_workbook _ _;; _) as [e|v]; [done|].
  intros [= _ <-] Hg Hs.
  rewrite !bool_decide_eq_false_2 by done.
  by destruct output_file_path.
Qed.

(** X15. A workbook without the requested sheet ("vocabulary" when none
    is named): [excel_to_rdf] lets the [KeyError] of the lookup through,
    after the load and without writing a file. *)
Theorem excel_to_rdf_missing_sheet (w : World) (path : Path)
    (sheet_name : option string) (output_type : string)
    (output_file_path : option Path) (wb : Workbook) :
  endswith_any (name path) EXCEL_FILE_ENDINGS = true →
  openpyxl_load_workbook (str path) (files w !! str path) = inr wb →
  default "vocabulary" sheet_name ∉ wb.*1 →
  excel_to_rdf w path sheet_name output_type output_file_path =
    ({| files := files w; loads := loads w ++ [str path] |},
     inl (KeyError (default "vocabulary" sheet_name))).
Proof.
  intros Hgate Hload Habsent. unfold excel_to_rdf, load_workbook.
  rewrite Hgate. simpl. rewrite Hload. simpl.
  by rewrite (getitem_absent wb _ Habsent).
Qed.

End OrchestratorEdges.

Section MainFacts.
Context {MD : Models} {LB : Libraries} {CL : Cli}.
Import Py Openpyxl Pathlib World Convert Spec.

Lemma endswith_known (nm : string) :
  endswith_any nm KNOWN_FILE_ENDINGS
  = endswith_any nm RDF_FILE_ENDINGS || endswith_any nm EXCEL_FILE_ENDINGS.
Proof. unfold endswith_any, KNOWN_FILE_ENDINGS. apply existsb_app. Qed.


End MainFacts.

(** ** The further properties on concrete inputs *)

Section EdgeInstances.
Import Py Openpyxl Pathlib World Spec.

Lemma extract_without_sentinel_witness :
  Convert.extract_concepts_and_collections (MD := Demo.models) Demo.no_sentinel
  = inr ([], []).
Proof.
  apply (extract_without_sentinel (MD := Demo.models) Demo.no_sentinel).
  intros row _. do 4 (destruct row as [|row]; [reflexivity|]). reflexivity.
Defined.

Lemma non_text_list_cell_raises_witness :
  Convert.extract_concepts_and_collections (MD := Demo.models) Demo.number_sheet
  = inl (AttributeError "object has no attribute 'strip'").
Proof.
  eapply (non_text_list_cell_raises (MD := Demo.models) Demo.number_sheet
            [1; 2; 3] [5; 6; 7; 8; 9] 4).
  - reflexivity.
  - reflexivity.
  - split; [discriminate|reflexivity].
  - left. split; [reflexivity|]. left. exact Logic.I.
Defined.

Lemma entities_bounded_by_data_rows_witness :
  length Demo.sheet_concepts + length Demo.sheet_collections
  ≤ length (filter (data_row Demo.sheet) (first_column_rows Demo.sheet)).
Proof.
  apply (entities_bounded_by_data_rows (MD := Demo.models) Demo.sheet
           Demo.sheet_concepts Demo.sheet_collections).
  reflexivity.
Defined.

Lemma utils_split_tokens_clean_witness :
  Forall (λ t, t ≠ "" ∧ strip t = t ∧ count "," t = 0) ["a"; "b"; "c"].
Proof.
  apply (utils_split_tokens_clean (VStr " a, ,b ,c,") ["a"; "b"; "c"]).
  reflexivity.
Defined.

Lemma utils_split_join_round_trip_witness :
  Utils.split_and_tidy (VStr (join "," ["a"; "b"; "c"])) = inr ["a"; "b"; "c"].
Proof.
  apply (utils_split_join_round_trip (VStr " a, ,b ,c,") ["a"; "b"; "c"]).
  reflexivity.
Defined.

Lemma multiple_formats_list_witness :
  ["vocabs/a"; "vocabs/a"; "vocabs/b"] ≠ [] ∧
  ∀ x, x ∈ ["vocabs/a"; "vocabs/a"; "vocabs/b"]
       ↔ 1 < occurrences x (Utils.file_names (LB := Demo.libraries) "vocabs").
Proof.
  apply (multiple_formats_list (LB := Demo.libraries) "vocabs").
  reflexivity.
Defined.

Lemma multiple_formats_length_witness :
  1 + size (list_to_set (known_base_names (LB := Demo.libraries) Demo.drafts)
            : gset string)
  = length (filter has_known_ending Demo.drafts).
Proof.
  apply (multiple_formats_length (LB := Demo.libraries) "drafts" ["drafts/c"]).
  reflexivity.
Defined.

Lemma load_template_supported_witness :
  Utils.is_supported_template (Demo.workbook (VStr "0.4.3")) = inr (Utils.OBool true) ∧
  files Demo.templates = files Demo.templates ∧
  ["vocabs/T.XLSX"; "vocabs/T.XLSX"] = loads Demo.templates ++ ["vocabs/T.XLSX"; "vocabs/T.XLSX"].
Proof.
  apply (load_template_supported (LB := Demo.libraries) Demo.templates
           {| files := files Demo.templates;
              loads := ["vocabs/T.XLSX"; "vocabs/T.XLSX"] |}
           Demo.upper_xlsx (Demo.workbook (VStr "0.4.3"))).
  reflexivity.
Defined.

Lemma excel_to_rdf_file_holds_string_output_witness :
  ∃ text,
    Convert.excel_to_rdf (MD := Demo.models) (LB := Demo.libraries)
      Demo.world Demo.xlsx None "string" None
    = ({| files := files Demo.world; loads := ["vocabs/a.xlsx"] |},
       inr (Convert.OString text)) ∧
    Convert.excel_to_rdf (MD := Demo.models) (LB := Demo.libraries)
      Demo.world Demo.xlsx None "turtle" None
    = ({| files := <["vocabs/a.ttl" := TextFile text]> (files Demo.world);
          loads := ["vocabs/a.xlsx"] |},
       inr (Convert.OPath {| parents := ["vocabs"]; name := "a.ttl" |})).
Proof.
  eexists. split; [reflexivity|].
  apply (excel_to_rdf_file_holds_string_output (MD := Demo.models)
           (LB := Demo.libraries) Demo.world Demo.xlsx None "turtle" None None
           {| files := files Demo.world; loads := ["vocabs/a.xlsx"] |}).
  - reflexivity.
  - discriminate.
  - discriminate.
Defined.

Lemma excel_to_rdf_missing_sheet_witness :
  Convert.excel_to_rdf (MD := Demo.models) (LB := Demo.libraries)
    Demo.world Demo.bad_xlsx (Some "concepts") "file" None
  = ({| files := files Demo.world; loads := ["vocabs/bad.xlsx"] |},
     inl (KeyError "concepts")).
Proof.
  apply (excel_to_rdf_missing_sheet (MD := Demo.models) (LB := Demo.libraries)
           Demo.world Demo.bad_xlsx (Some "concepts") "file" None
           [("vocabulary", Demo.bad_sheet)]).
  - reflexivity.
  - reflexivity.
  - intros Hin. apply list_elem_of_singleton in Hin. discriminate Hin.
Defined.


End EdgeInstances.

(** ** What the extractor and the orchestrator leave alone *)

Section Untouched.
Context {MD : Models} {LB : Libraries}.
Import Py Openpyxl Pathlib World Convert Spec.

Lemma step_columns (s1 s2 : Worksheet) (st : State) (row : nat) :
  (∀ c, column_index c ≤ 7 → cell_value s1 c row = cell_value s2 c row) →
  step s1 st row = step s2 st row.
Proof.
  intros Hcells. unfold step, make_concept, make_collection.
  rewrite (Hcells A), (Hcells B), (Hcells C), (Hcells D), (Hcells E),
    (Hcells F), (Hcells G), (Hcells H) by (simpl; lia).
  done.
Qed.

(** X18. The extractor reads the columns A to H only: two sheets with the
    same number of rows that agree on these columns give the same
    result, whatever their other columns hold. *)
Theorem extract_reads_columns_A_to_H (s1 s2 : Worksheet) :
  max_row s1 = max_row s2 →
  (∀ c row, column_index c ≤ 7 → cell_value s1 c row = cell_value s2 c row) →
  extract_concepts_and_collections s1 = extract_concepts_and_collections s2.
Proof.
  intros Hrows Hcells. unfold extract_concepts_and_collections, first_column_rows.
  rewrite Hrows.
  assert (Hloop : ∀ rows st, loop s1 rows st = loop s2 rows st).
  { induction rows as [|r rows IH]; intros st; simpl; [done|].
    rewrite (step_columns s1 s2 st r) by (intros c Hc; by apply Hcells).
    destruct (step s2 st r) as [e|st1]; simpl; [done|]. apply IH. }
  by rewrite Hloop.
Qed.

End Untouched.

Section UntouchedInstances.
Import Py Openpyxl Pathlib World Spec.

Lemma extract_reads_columns_A_to_H_witness :
  Convert.extract_concepts_and_collections (MD := Demo.models) Demo.sheet
  = Convert.extract_concepts_and_collections (MD := Demo.models) Demo.noted_sheet.
Proof.
  apply (extract_reads_columns_A_to_H (MD := Demo.models) Demo.sheet Demo.noted_sheet).
  - reflexivity.
  - intros c row Hc.
    do 10 (destruct row as [|row]; [by destruct c; simpl in Hc; try lia|]).
    by destruct c.
Defined.

Lemma excel_to_rdf_writes_dest_only_witness :
  files (Convert.excel_to_rdf (MD := Demo.models) (LB := Demo.libraries)
           Demo.world Demo.xlsx None "file" None).1 !! "vocabs/a.xlsx"
  = files Demo.world !! "vocabs/a.xlsx".
Proof.
  apply (excel_to_rdf_writes_dest_only (MD := Demo.models) (LB := Demo.libraries)
           Demo.world Demo.xlsx None "file" None "vocabs/a.xlsx").
  intros dest [= <-]. discriminate.
Defined.

End UntouchedInstances.

(** ** The extension gate of excel_to_rdf *)

Section ExtensionGate.
Context {MD : Models} {LB : Libraries}.
Import Py Openpyxl Pathlib World Convert Spec.

Lemma string_app_assoc (s1 s2 s3 : string) :
  (s1 +:+ s2) +:+ s3 = s1 +:+ (s2 +:+ s3).
Proof.
  induction s1 as [|a s1 IH]; [done|].
  rewrite !string_app_cons. by rewrite IH.
Qed.

(** Two texts with the same end of the same length. *)
Lemma string_app_tail (s1 s2 t1 t2 : string) :
  s1 +:+ t1 = s2 +:+ t2 → String.length t1 = String.length t2 → t1 = t2.
Proof.
  intros Heq Hlen.
  assert (Hl : String.length s1 = String.length s2).
  { apply (f_equal String.length) in Heq.
    rewrite !length_string_app in Heq. lia. }
  revert s2 Heq Hl. induction s1 as [|a s1 IH]; intros [|b s2] Heq Hl;
    simpl in Hl; try lia.
  - done.
  - rewrite !string_app_cons in Heq. injection Heq as _ Heq.
    apply (IH s2); [done|lia].
Qed.

(** An extension that is not empty is the end of the name, from a dot
    on. *)
Lemma extension_spec (nm : string) :
  extension nm ≠ "" →
  ∃ stem rest, nm = stem +:+ String "." rest ∧ extension nm = String "." rest.
Proof.
  unfold extension. destruct (rfind "." nm) as [i|] eqn:Hr; [|done].
  case_bool_decide as Hdots; [done|]. intros _.
  apply rfind_Some in Hr as (s1 & s2 & Hname & <-).
  exists s1, s2. split; [done|].
  rewrite Hname, length_string_app.
  replace (String.length s1 + String.length (String "." s2) - String.length s1)
    with (String.length (String "." s2)) by lia.
  by rewrite substring_string_app.
Qed.

Lemma supported_length (e : string) :
  e ∈ SUPPORTED_FORMATS → String.length e = 5.
Proof.
  unfold SUPPORTED_FORMATS. rewrite !elem_of_cons.
  intros [->|[->|[->|[->|Hnil]]]]; [done..|]. by apply not_elem_of_nil in Hnil.
Qed.

(** A name that ends in "xlsx" and has an extension that openpyxl supports
    has the extension ".xlsx". *)
Lemma xlsx_extension (nm : string) :
  endswith nm "xlsx" = true →
  lower (extension nm) ∈ SUPPORTED_FORMATS →
  extension nm = ".xlsx".
Proof.
  intros (stem' & Hend)%endswith_true Hsup.
  pose proof (supported_length _ Hsup) as Hlen. rewrite length_lower in Hlen.
  destruct (extension_spec nm) as (stem & rest & Hname & Hext).
  { intros He. rewrite He in Hlen. done. }
  rewrite Hext in Hlen |- *. simpl in Hlen.
  assert (rest = "xlsx") as ->; [|done].
  apply (string_app_tail (stem +:+ ".") stem'); [|simpl; lia].
  by rewrite string_app_assoc, <- Hend, Hname.
Qed.

(** A name with the extension ".xlsx" passes the gate of the code. *)
Lemma xlsx_passes_gate (nm : string) :
  extension nm = ".xlsx" → endswith_any nm EXCEL_FILE_ENDINGS = true.
Proof.
  intros Hext. destruct (extension_spec nm) as (stem & rest & Hname & Hrest).
  { by rewrite Hext. }
  rewrite Hext in Hrest. injection Hrest as <-.
  unfold endswith_any, EXCEL_FILE_ENDINGS. simpl. rewrite orb_false_r.
  rewrite Hname.
  change (stem +:+ ".xlsx") with (stem +:+ ("." +:+ "xlsx")).
  rewrite <- string_app_assoc. apply endswith_string_app.
Qed.

(** The exceptions of the loop body and of the loop. *)
Lemma step_raises (s : Worksheet) (st : State) (row : nat) (e : exn) :
  step s st row = inl e → raised_after_load e.
Proof.
  unfold step.
  destruct (eq_str _ "Concept URI"); [done|].
  destruct (eq_str _ "Collection URI"); [done|].
  destruct (process_concept st); [|destruct (process_collection st); [|done]].
  - destruct (is_None _); [done|]. unfold make_concept.
    destruct (split_and_tidy_cases (cell_value s C row)) as [[_ ->]|[_ [al ->]]];
      simpl; [by intros [= <-]|].
    destruct (split_and_tidy_cases (cell_value s E row)) as [[_ ->]|[_ [ch ->]]];
      simpl; [by intros [= <-]|].
    destruct (split_and_tidy_cases (cell_value s F row)) as [[_ ->]|[_ [oi ->]]];
      simpl; [by intros [= <-]|].
    destruct (models_Concept _); simpl; [by intros [= <-]|done].
  - destruct (is_None _); [done|]. unfold make_collection.
    destruct (split_and_tidy_cases (cell_value s D row)) as [[_ ->]|[_ [ms ->]]];
      simpl; [by intros [= <-]|].
    destruct (models_Collection _); simpl; [by intros [= <-]|done].
Qed.

Lemma loop_raises (s : Worksheet) (rows : list nat) (st : State) (e : exn) :
  loop s rows st = inl e → raised_after_load e.
Proof.
  revert st. induction rows as [|r rows IH]; intros st; simpl; [done|].
  destruct (step s st r) as [e'|st1] eqn:Hstep; simpl.
  - intros [= <-]. by eapply step_raises.
  - apply IH.
Qed.

Lemma build_vocabulary_raises (sheet : Worksheet) (e : exn) :
  build_vocabulary sheet = inl e → raised_after_load e.
Proof.
  unfold build_vocabulary. rewrite make_concept_scheme_eq.
  destruct (models_ConceptScheme _) as [m|cs]; simpl; [by intros [= <-]|].
  unfold extract_concepts_and_collections.
  destruct (loop sheet _ initial) as [e'|st] eqn:Hloop; simpl.
  - intros [= <-]. by eapply loop_raises.
  - destruct (models_Vocabulary _ _ _); [by intros [= <-]|done].
Qed.

(** Once the workbook is loaded, what is raised comes from the lookup of
    the sheet or from the parsing. *)
Lemma loaded_raises (w : World) (path : Path) (sheet_name : option string)
    (output_type : string) (output_file_path : option Path)
    (wb : Workbook) (e : exn) :
  endswith_any (name path) EXCEL_FILE_ENDINGS = true →
  openpyxl_load_workbook (str path) (files w !! str path) = inr wb →
  (excel_to_rdf w path sheet_name output_type output_file_path).2 = inl e →
  raised_after_load e.
Proof.
  intros Hgate Hload. unfold excel_to_rdf, load_workbook.
  rewrite Hgate. simpl. rewrite Hload. simpl.
  destruct (getitem wb _) as [e'|sheet] eqn:Hget; simpl.
  - apply getitem_exn in Hget as ->. by intros [= <-].
  - destruct (build_vocabulary sheet) as [e'|v] eqn:Hb.
    + intros [= <-]. by eapply build_vocabulary_raises.
    + repeat case_bool_decide; done.
Qed.

(** C8. [excel_to_rdf] fails fast, with an error that is not a
    [ConversionError] and before any file is opened or read, exactly when
    the extension of the name of the path is not ".xlsx": a name that does
    not end in "xlsx" gets the [ValueError] of the code, and a name that
    does but has another extension is refused by openpyxl, which checks
    the extension before it opens the file. With the extension ".xlsx" the
    file is opened, so that the outcome depends on it. A
    [ConversionError] of the header block or of a row is what the call
    then raises. *)
Theorem excel_to_rdf_fails_fast (path : Path) :
  openpyxl_checks_extension path →
  openpyxl_opens path →
  (fails_fast path ↔ extension (name path) ≠ ".xlsx") ∧
  (∀ w sheet_name output_type output_file_path wb sheet msg,
     endswith_any (name path) EXCEL_FILE_ENDINGS = true →
     openpyxl_load_workbook (str path) (files w !! str path) = inr wb →
     getitem wb (default "vocabulary" sheet_name) = inr sheet →
     make_concept_scheme sheet = inl (ConversionError msg)
     ∨ (∃ cs, make_concept_scheme sheet = inr cs ∧
              extract_concepts_and_collections sheet = inl (ConversionError msg)) →
     (excel_to_rdf w path sheet_name output_type output_file_path).2
     = inl (ConversionError msg)).
Proof.
  intros Hcheck Hopen. split; [split|].
  - (* failing fast needs another extension *)
    intros (e & Hnot & Hfast) Hext.
    pose proof (xlsx_passes_gate _ Hext) as Hgate.
    destruct Hopen as [[msg Hmissing] (file & wb & Hfile)].
    { rewrite Hext. by left. }
    destruct (Hfast {| files := ∅; loads := [] |} None "graph" None) as [HA _].
    destruct (Hfast {| files := {[str path := file]}; loads := [] |}
                None "graph" None) as [HB _].
    assert (e = FileNotFoundError msg) as ->.
    { unfold excel_to_rdf, load_workbook in HA. rewrite Hgate in HA.
      simpl in HA. rewrite lookup_empty, Hmissing in HA. simpl in HA.
      by injection HA as <-. }
    eapply (loaded_raises _ path None "graph" None wb) in HB; [done|done|].
    simpl. by rewrite lookup_singleton_eq.
  - (* another extension fails fast *)
    intros Hext.
    destruct (endswith_any (name path) EXCEL_FILE_ENDINGS) eqn:Hgate.
    + destruct Hcheck as [msg Hrefused].
      { intros Hsup. apply Hext. apply xlsx_extension; [|done].
        unfold endswith_any, EXCEL_FILE_ENDINGS in Hgate. simpl in Hgate.
        by rewrite orb_false_r in Hgate. }
      exists (InvalidFileException msg). split; [done|].
      intros w sheet_name output_type output_file_path.
      unfold excel_to_rdf, load_workbook. rewrite Hgate. simpl.
      by rewrite Hrefused.
    + eexists. split; [|intros w sheet_name output_type output_file_path;
                        by rewrite excel_gate_refuses].
      done.
  - (* a ConversionError of the parsing is raised as it is *)
    intros w sheet_name output_type output_file_path wb sheet msg
      Hgate Hload Hsheet Hparse.
    unfold excel_to_rdf, load_workbook. rewrite Hgate. simpl.
    rewrite Hload. simpl. rewrite Hsheet. simpl.
    unfold build_vocabulary.
    destruct Hparse as [-> | (cs & -> & Hrows)]; [done|].
    simpl. by rewrite Hrows.
Qed.

End ExtensionGate.

Section ExtensionGateInstances.
Import Py Openpyxl Pathlib World Spec.

Lemma excel_to_rdf_fails_fast_witness :
  fails_fast (MD := Demo.models) (LB := Demo.libraries) Demo.no_dot ∧
  ¬ fails_fast (MD := Demo.models) (LB := Demo.libraries) Demo.xlsx.
Proof.
  split.
  - apply (excel_to_rdf_fails_fast (MD := Demo.models) (LB := Demo.libraries)
             Demo.no_dot).
    + intros _. exists "vocabxlsx". intros file. reflexivity.
    + intros Hsup. exfalso.
      apply (supported_length _) in Hsup. discriminate Hsup.
    + discriminate.
  - intros Hfast.
    apply (excel_to_rdf_fails_fast (MD := Demo.models) (LB := Demo.libraries)
             Demo.xlsx) in Hfast.
    + apply Hfast. reflexivity.
    + intros Hnot. exfalso. apply Hnot. left.
    + intros _. split.
      * exists "vocabs/a.xlsx". reflexivity.
      * exists (XlsxFile []), []. reflexivity.
Defined.

End ExtensionGateInstances.
